(** * Reconcile loops of the operator: log collector and API server

    A shallow embedding of
    - [pkg/controller/logcollector/logcollector_controller.go]
      ([fillDefaults], the credential helpers, [getEksCloudwatchLogConfig]
      and [ReconcileLogCollector.Reconcile]), and
    - the API server controller ([ReconcileAPIServer.Reconcile],
      [maintainFinalizer]).

    The cluster is an oracle: every call that leaves the controller (a
    read through the client, a helper of [utils], the certificate
    manager, the status manager) is answered by a field of a record, and
    every effect on the status manager, on the cluster and on the
    component handler is logged, in order, in a list of events. *)

From Stdlib Require Import String Ascii List ZArith Bool Lia.
From stdpp Require Import base option gmap strings.
Import ListNotations.
Local Open Scope string_scope.

(** ** Go values *)

(** The zero value of a Go string. *)
Definition empty : string := EmptyString.

Definition is_empty (s : string) : bool :=
  match s with EmptyString => true | String _ _ => false end.

(** A Go slice is either nil or a sequence; [len] is 0 for both the nil
    and the empty slice. *)
Definition slice (A : Type) : Type := option (list A).

Definition len {A : Type} (s : slice A) : nat :=
  match s with None => 0 | Some l => length l end.

(** [p != nil] for a pointer or an interface value. *)
Definition notNil {A : Type} (p : option A) : bool :=
  match p with Some _ => true | None => false end.

Definition elems {A : Type} (s : slice A) : list A :=
  match s with None => [] | Some l => l end.

(** [%q] of a string without characters that need escaping. *)
Definition dquote : string := String (ascii_of_nat 34) EmptyString.
Definition fmt_q (s : string) : string := dquote ++ s ++ dquote.

(** [strings.Join]. *)
Fixpoint Join (l : list string) (sep : string) : string :=
  match l with
  | [] => EmptyString
  | [x] => x
  | x :: rest => x ++ sep ++ Join rest sep
  end.

(** ** Errors

    [errors.IsNotFound] and [meta.IsNoMatchError] only look at the kind
    of an error; [fmt.Errorf] with [%s] or [%v] builds an error of
    neither kind. *)
Module errors.

Inductive kind := NotFound | NoMatch | Other.

Record error := mkError { err_kind : kind; Error : string }.

Definition IsNotFound (e : error) : bool :=
  match err_kind e with NotFound => true | _ => false end.

Definition IsNoMatchError (e : error) : bool :=
  match err_kind e with NoMatch => true | _ => false end.

Definition Errorf (msg : string) : error := mkError Other msg.

(** [fmt.Errorf] with [%w] keeps the wrapped error's kind. *)
Definition Wrapf (msg : string) (e : error) : error :=
  mkError (err_kind e) (msg ++ Error e).

End errors.
Export errors.

(** The result of a call that returns [(T, error)] where exactly one of
    the two is meaningful. *)
Inductive result (A : Type) : Type :=
| Ok (a : A)
| Err (e : error).
Arguments Ok {A} a.
Arguments Err {A} e.

(** ** API types ([operatorv1])

    Only the fields that the controllers touch are spelled out. *)
Module operatorv1.

Definition CollectProcessPathOption := string.
Definition SyslogLogType := string.
Definition EncryptionOption := string.
Definition ProductVariant := string.
Definition Provider := string.

(** Modelled from the spec: the constants of [api/v1], whose
    declarations are not among the sources.  The claims name them
    Enable, Audit, DNS, Flows, IDSEvents, None, Ready,
    TigeraSecureEnterprise and Calico; what matters below is that the
    named constants are pairwise different and none is the empty
    string. *)
Definition CollectProcessPathEnable : CollectProcessPathOption := "Enabled".
Definition SyslogLogAudit : SyslogLogType := "Audit".
Definition SyslogLogDNS : SyslogLogType := "DNS".
Definition SyslogLogFlows : SyslogLogType := "Flows".
Definition SyslogLogIDSEvents : SyslogLogType := "IDSEvents".
Definition EncryptionNone : EncryptionOption := "None".
Definition EncryptionTLS : EncryptionOption := "TLS".
Definition TigeraStatusReady : string := "Ready".
Definition TigeraSecureEnterprise : ProductVariant := "TigeraSecureEnterprise".
Definition Calico : ProductVariant := "Calico".
Definition ProviderEKS : Provider := "EKS".
Definition ProviderOpenShift : Provider := "OpenShift".

Definition IsEKS (p : Provider) : bool := String.eqb p ProviderEKS.
Definition IsOpenShift (p : Provider) : bool := String.eqb p ProviderOpenShift.

(** Reasons handed to [SetDegraded]. *)
Inductive TigeraStatusReason :=
| ResourceReadError | ResourcePatchError | ResourceNotReady
| ResourceNotFound | ResourceCreateError | ResourceValidationError
| ResourceUpdateError | ResourceRenderingError | CertificateError.

(** A struct none of whose fields the controllers read. *)
Record Opaque := mkOpaque { opaque_id : string }.

Definition ObjectMeta := Opaque.
Definition Condition := Opaque.

Record SyslogStoreSpec := mkSyslog {
  Endpoint : string;
  PacketSize : option Z;
  LogTypes : slice SyslogLogType;
  Encryption : EncryptionOption
}.

Record AdditionalLogStoreSpec := mkStores {
  S3 : option Opaque;
  Syslog : option SyslogStoreSpec;
  Splunk : option Opaque
}.

Record EksCloudwatchLogsSpec := mkEksSpec {
  Region : string;
  GroupName : string;
  StreamPrefix : string;
  FetchInterval : Z
}.

Record AdditionalLogSourceSpec := mkSources {
  EksCloudwatchLog : option EksCloudwatchLogsSpec
}.

Record LogCollectorSpec := mkLCSpec {
  AdditionalStores : option AdditionalLogStoreSpec;
  AdditionalSources : option AdditionalLogSourceSpec;
  CollectProcessPath : option CollectProcessPathOption;
  MultiTenantManagementClusterNamespace : string;
  FluentdDaemonSet : option Opaque;
  EKSLogForwarderDeployment : option Opaque
}.

Record LogCollectorStatus := mkLCStatus {
  State : string;
  Conditions : list Condition
}.

Record LogCollector := mkLogCollector {
  Meta : ObjectMeta;
  Spec : LogCollectorSpec;
  Status : LogCollectorStatus
}.

End operatorv1.

(** More of [operatorv1]: the resources the controllers read. *)
Module operatorv1_resources.
Import operatorv1.

Record InstallationSpec := mkInstallation {
  Variant : ProductVariant;
  KubernetesProvider : Provider;
  Registry : string;
  ControlPlaneReplicas : option Z;
  inst_CertificateManagement : option Opaque
}.

Record ManagementClusterTLS := mkMCTLS { SecretName : string }.

Record ManagementCluster := mkManagementCluster {
  mc_Address : string;
  mc_TLS : option ManagementClusterTLS
}.

Definition ManagementClusterConnection := Opaque.
Definition ApplicationLayer := Opaque.
Definition Tenant := Opaque.
Definition LicenseKey := Opaque.
Definition PacketCaptureAPI := Opaque.

Record NonClusterHost := mkNonClusterHost { nch_Endpoint : string }.

Record Authentication := mkAuthentication {
  auth_Spec : Opaque;
  auth_State : string
}.

Record APIServerSpec := mkAPIServerSpec {
  APIServerDeployment : option Opaque
}.

Record APIServer := mkAPIServer {
  as_Meta : ObjectMeta;
  as_Spec : APIServerSpec;
  as_State : string;
  as_Conditions : list Condition
}.

Record TigeraStatus := mkTigeraStatus {
  ts_Conditions : list Condition;
  ts_Available : bool
}.

End operatorv1_resources.
Export operatorv1_resources.

(** ** Core objects *)
Module corev1.

Definition bytes := list Byte.byte.

Record Secret := mkSecret { Data : gmap string bytes }.

Record ConfigMap := mkConfigMap { cm_Data : gmap string string }.

Definition TLSCertKey : string := "tls.crt".

(** [m[k]] on a Go map: the zero value when the key is missing. *)
Definition at_key (m : gmap string bytes) (k : string) : bytes :=
  default [] (m !! k).

Definition str_at_key (m : gmap string string) (k : string) : string :=
  default EmptyString (m !! k).

End corev1.

(** ** Certificates ([pkg/tls/certificatemanagement]) *)
Module certificatemanagement.

Record Certificate := mkCertificate {
  cert_name : string;
  cert_namespace : string;
  cert_pem : string
}.

Definition KeyPair := operatorv1.Opaque.

(** A trusted bundle is the list of certificates added to it. *)
Record TrustedBundle := mkBundle { bundle_certificates : list Certificate }.

Definition AddCertificates (b : TrustedBundle) (c : Certificate) : TrustedBundle :=
  mkBundle (bundle_certificates b ++ [c]).

Definition NewCertificate (name ns pem : string) : Certificate :=
  mkCertificate name ns pem.

Definition NewKeyPair (secret : corev1.Secret) : KeyPair :=
  operatorv1.mkOpaque "tunnel-ca".

End certificatemanagement.

(** ** Rendering ([pkg/render])

    The renderers themselves are not part of the sources; a rendered
    component is the renderer's name applied to its configuration. *)
Module render.
Import operatorv1 corev1 certificatemanagement.

(** Modelled from the spec: names declared in [pkg/render],
    [pkg/common] and [pkg/render/monitor], which are not among the
    sources.  They are only ever used as keys. *)
Definition OperatorNamespace : string := "tigera-operator".
Definition LogCollectorNamespace : string := "tigera-fluentd".
Definition APIServerNamespace : string := "calico-system".
Definition S3FluentdSecretName : string := "log-collector-s3-credentials".
Definition S3KeyIdName : string := "key-id".
Definition S3KeySecretName : string := "key-secret".
Definition SplunkFluentdTokenSecretName : string := "logcollector-splunk-credentials".
Definition SplunkFluentdSecretTokenKey : string := "token".
Definition FluentdFilterConfigMapName : string := "fluentd-filters".
Definition FluentdFilterFlowName : string := "flow".
Definition FluentdFilterDNSName : string := "dns".
Definition EksLogForwarderSecret : string := "tigera-eks-log-forwarder-secret".
Definition EksLogForwarderAwsId : string := "aws-id".
Definition EksLogForwarderAwsKey : string := "aws-key".
Definition SyslogCAConfigMapName : string := "syslog-ca".
Definition FluentdPrometheusTLSSecretName : string := "tigera-fluentd-prometheus-tls".
Definition FluentdInputService : string := "fluentd-http-input".
Definition FluentdNodeName : string := "fluentd-node".
Definition EKSLogForwarderName : string := "eks-log-forwarder".
Definition EKSLogForwarderTLSSecretName : string := "tigera-eks-log-forwarder-tls".
Definition TigeraLinseedSecret : string := "tigera-secure-linseed-cert".
Definition VoltronLinseedPublicCert : string := "tigera-voltron-linseed-certs-public".
Definition PrometheusClientTLSSecretName : string := "calico-node-prometheus-client-tls".
Definition TigeraComponentTierName : string := "allow-tigera".
Definition ExportLogsFeature : string := "export-logs".
Definition CalicoAPIServerTLSSecretName : string := "calico-apiserver-certs".
Definition APIServerServiceName : string := "calico-api".
Definition APIServerResourceName : string := "calico-apiserver".
Definition APIServerServiceAccountName : string := "calico-apiserver".
Definition APIServerFinalizer : string := "tigera.io/apiserver-cleanup".
Definition DexTLSSecretName : string := "tigera-dex-tls".
Definition PSSPrivileged : string := "privileged".

Inductive OSType := OSTypeLinux | OSTypeWindows.

Record S3Credential := mkS3Credential { KeyId : bytes; KeySecret : bytes }.

Record SplunkCredential := mkSplunkCredential { Token : bytes }.

Record FluentdFilters := mkFilters { Flow : string; DNS : string }.

Record EksCloudwatchLogConfig := mkEksConfig {
  AwsId : bytes;
  AwsKey : bytes;
  AwsRegion : string;
  eks_GroupName : string;
  eks_StreamPrefix : string;
  eks_FetchInterval : Z
}.

Definition ClusterConfig := Opaque.
Definition PullSecrets := list Opaque.

Record FluentdConfiguration := mkFluentdCfg {
  fl_LogCollector : LogCollector;
  fl_ESClusterConfig : option ClusterConfig;
  fl_S3Credential : option S3Credential;
  fl_SplkCredential : option SplunkCredential;
  fl_Filters : option FluentdFilters;
  fl_EKSConfig : option EksCloudwatchLogConfig;
  fl_PullSecrets : PullSecrets;
  fl_Installation : InstallationSpec;
  fl_ClusterDomain : string;
  fl_OSType : OSType;
  fl_FluentdKeyPair : option KeyPair;
  fl_TrustedBundle : option TrustedBundle;
  fl_ManagedCluster : bool;
  fl_UseSyslogCertificate : bool;
  fl_Tenant : option Tenant;
  fl_ExternalElastic : bool;
  fl_EKSLogForwarderKeyPair : option KeyPair;
  fl_PacketCapture : option PacketCaptureAPI;
  fl_NonClusterHost : option NonClusterHost
}.

Record SetUpConfiguration := mkSetUpCfg {
  su_OpenShift : bool;
  su_Installation : InstallationSpec;
  su_PullSecrets : PullSecrets;
  su_Namespace : string;
  su_PSS : string;
  su_CreateNamespace : bool
}.

(** [rcertificatemanagement.KeyPairOption]. *)
Record KeyPairOption := NewKeyPairOption {
  kpo_keyPair : option KeyPair;
  kpo_initContainer : bool;
  kpo_renderCertificate : bool
}.

(** [rcertificatemanagement.Config]. *)
Record CertificateConfig := mkCertCfg {
  cc_Namespace : string;
  cc_ServiceAccounts : list string;
  cc_KeyPairOptions : list KeyPairOption;
  cc_TrustedBundle : option TrustedBundle
}.

(** The endpoint of the Kubernetes service ([k8sapi.Endpoint]). *)
Definition ServiceEndpoint := Opaque.
Definition KeyValidatorConfig := Opaque.
Definition VersionInfo := Opaque.

Record APIServerConfiguration := mkAPIServerCfg {
  ac_K8SServiceEndpoint : ServiceEndpoint;
  ac_Installation : InstallationSpec;
  ac_APIServer : APIServerSpec;
  ac_ForceHostNetwork : bool;
  ac_ApplicationLayer : option ApplicationLayer;
  ac_ManagementCluster : option ManagementCluster;
  ac_ManagementClusterConnection : option ManagementClusterConnection;
  ac_TLSKeyPair : option KeyPair;
  ac_PullSecrets : PullSecrets;
  ac_OpenShift : bool;
  ac_TrustedBundle : option TrustedBundle;
  ac_MultiTenant : bool;
  ac_KeyValidatorConfig : option KeyValidatorConfig;
  ac_KubernetesVersion : option VersionInfo;
  ac_CanCleanupOlderResources : bool;
  ac_QueryServerTLSKeyPairCertificateManagementOnly : option KeyPair
}.

Inductive Component :=
| NewSetup (cfg : SetUpConfiguration)
| Fluentd (cfg : FluentdConfiguration)
| CertificateManagement (cfg : CertificateConfig)
| APIServerPolicy (cfg : APIServerConfiguration)
| APIServerComponent (cfg : APIServerConfiguration).

(** *** What a component renders *)

(** A rendered object, as far as the rendering tests look at it:
    kind, API version, name and namespace (empty for cluster-scoped
    objects). *)
Record Object := mkObject {
  obj_Kind : string;
  obj_APIVersion : string;
  obj_Name : string;
  obj_Namespace : string
}.









Definition APIServer (cfg : APIServerConfiguration) : result Component :=
  Ok (APIServerComponent cfg).



End render.

(** ** The reconcile contract ([controller-runtime]) *)
Module reconcile.

(** [utils.StandardRetry] is the only non-zero delay the controllers
    ask for. *)
Inductive Duration := NoDelay | StandardRetry.

Record Result := mkResult { RequeueAfter : Duration }.

(** [reconcile.Result{}]. *)
Definition Done : Result := mkResult NoDelay.

Record Request := mkRequest { Name : string; Namespace : string }.

End reconcile.

(** ** Effects

    What a reconcile does to the status manager, to the cluster and to
    the component handler, and what it reads, in the order it does it. *)
Module effects.
Import operatorv1 render reconcile.

Inductive read :=
| ReadLogCollector | ReadAPIServer | ReadTigeraStatus
| ReadAPIServerReady | ReadTier
| ReadLicenseKey | ReadInstallation | ReadPullSecrets
| ReadManagementClusterConnection | ReadManagementCluster
| ReadCA | ReadKeyPair (name : string)
| ReadCertificate (name ns : string)
| ReadTenant (ns : string) | ReadTrustedBundle
| ReadSecret (name ns : string) | ReadConfigMap (name ns : string)
| ReadElasticsearchClusterConfig | ReadPacketCaptureAPI
| ReadNonClusterHost | ReadWindowsNodes
| ReadApplicationLayer | ReadAuthentication | ReadKeyValidatorConfig
| ReadK8sServiceEndpoint | ReadDeployment (name ns : string).

Inductive event :=
| OnCRNotFound
| OnCRFound
| SetDegraded (reason : TigeraStatusReason) (msg : string) (err : option error)
| ClearDegraded
| SetMetaData (meta : ObjectMeta)
| AddToStatusManager (ns : string)
| Reads (what : read)
| StatusUpdate (state : string) (conditions : list Condition)
| Patch (spec : LogCollectorSpec)
| ApplyImageSet (variant : ProductVariant) (comps : list Component)
| CreateOrUpdateOrDelete (comp : Component)
| MaintainInstallationFinalizer (mainResourcePresent : bool) (finalizer : string).

(** One step of a reconcile: go on with a value, or return from
    [Reconcile] with a result and an error. *)
Inductive step (A : Type) : Type :=
| Next (a : A)
| Return (res : Result) (err : option error).
Arguments Next {A} a.
Arguments Return {A} res err.

(** A piece of [Reconcile]: how it ends, and the events it caused. *)
Definition M (A : Type) : Type := (step A * list event)%type.

Definition ret {A} (a : A) : M A := (Next a, []).

Definition bind {A B} (m : M A) (k : A -> M B) : M B :=
  match m with
  | (Next a, l) => let (s, l') := k a in (s, (l ++ l')%list)
  | (Return res err, l) => (Return res err, l)
  end.

Definition emit (e : event) : M unit := (Next tt, [e]).

Definition exit {A} (res : Result) (err : option error) : M A :=
  (Return res err, []).

(** A cluster read: logged, and answered by the oracle. *)
Definition ask {A} (what : read) (answer : A) : M A :=
  (Next answer, [Reads what]).

(** [defer]: the event happens when the rest of the function returns,
    however it returns. *)
Definition defer {A} (e : event) (body : M A) : M A :=
  let (s, l) := body in (s, (l ++ [e])%list).

(** What [Reconcile] hands back: result, error, and its effects. *)
Record outcome := mkOutcome {
  out_result : Result;
  out_error : option error;
  out_events : list event
}.

Definition run (m : M (Result * option error)) : outcome :=
  match m with
  | (Next (res, err), l) => mkOutcome res err l
  | (Return res err, l) => mkOutcome res err l
  end.

End effects.

Declare Scope reconcile_scope.
Delimit Scope reconcile_scope with reconcile.
Notation "'let*' x ':=' m 'in' k" := (effects.bind m (fun x => k))
  (at level 10, x name, m at level 100, k at level 200) : reconcile_scope.

(** ** The client and the helper packages

    [Client] answers the typed reads and the writes that the
    controllers issue through [r.client]; [Helpers] answers the calls
    into packages that are not part of the sources ([utils],
    [certificatemanager], [imageset], [common], [url], [dns], the status
    manager and the component handler). *)
Module world.
Import operatorv1 corev1 certificatemanagement render.

Record Client := mkClient {
  GetLogCollector_ : result LogCollector;
  GetTigeraStatus : string -> result TigeraStatus;
  GetTier : string -> option error;
  GetSecret : string -> string -> result Secret;
  GetConfigMap : string -> string -> result ConfigMap;
  GetDeploymentAvailableReplicas : string -> string -> result Z;
  StatusUpdate_ : string -> list Condition -> option error;
  Patch_ : LogCollectorSpec -> option error
}.

Record Helpers := mkHelpers {
  ParseEndpoint : string -> option error;
  GetAPIServer : result operatorv1_resources.APIServer;
  GetAPIServerMsg : string;
  UpdateStatusCondition : list Condition -> list Condition -> list Condition;
  IsAPIServerReady : bool;
  FetchLicenseKey : result LicenseKey;
  GetInstallation : result (ProductVariant * InstallationSpec);
  GetNetworkingPullSecrets : InstallationSpec -> result PullSecrets;
  GetManagementClusterConnection : result (option ManagementClusterConnection);
  GetManagementCluster : result (option ManagementCluster);
  CertificateManagerCreate : option error;
  GetServiceDNSNames : string -> string -> string -> list string;
  GetOrCreateKeyPair : string -> string -> list string -> result KeyPair;
  GetCertificate : string -> string -> result (option Certificate);
  GetTenant : string -> result (option Tenant);
  CreateTrustedBundleWithSystemRootCertificates :
    list Certificate -> result TrustedBundle;
  CreateNamedTrustedBundleFromSecrets : string -> result TrustedBundle;
  IsFeatureActive : LicenseKey -> string -> bool;
  GetElasticsearchClusterConfig : result ClusterConfig;
  GetPacketCaptureAPI : result (option PacketCaptureAPI);
  GetNonClusterHost : result (option NonClusterHost);
  ApplyImageSet_ : ProductVariant -> list Component -> option error;
  CreateOrUpdateOrDelete_ : Component -> option error;
  HasWindowsNodes : result bool;
  IsAvailable : bool;
  GetApplicationLayer : result (option ApplicationLayer);
  GetSecret_ : string -> string -> result (option Secret);
  GetAuthentication : result (option Authentication);
  DexEnabled : Authentication -> bool;
  GetKeyValidatorConfig : Authentication -> result KeyValidatorConfig;
  PopulateK8sServiceEndPoint : option error;
  K8sEndpoint : ServiceEndpoint;
  ValidateReplicatedPodResourceOverrides : Opaque -> option error;
  MaintainInstallationFinalizer_ : bool -> string -> option error;
  DeploymentPodsRunning : string -> string -> bool
}.

End world.

(** ** The finalizer on the Installation ([utils]) *)
Module utils.

(** Modelled from the spec: [utils.MaintainInstallationFinalizer],
    which is not among the sources.  Following the comment on
    [maintainFinalizer]: the finalizer is added to the Installation
    while the main resource (the APIServer) is there, and removed only
    once the main resource is gone and the pods of the secondary
    resource (the calico-apiserver Deployment) have stopped running.
    The function maps the finalizers of the Installation before the
    call to those after it. *)
Definition MaintainInstallationFinalizer (finalizers : gset string)
    (mainResourcePresent : bool) (finalizer : string) (podsRunning : bool)
    : gset string :=
  if mainResourcePresent then {[ finalizer ]} ∪ finalizers
  else if podsRunning then finalizers
  else finalizers ∖ {[ finalizer ]}.

End utils.

(** ** Steps shared by the two reconcilers *)
Module steps.
Import operatorv1 render reconcile effects world.
Local Open Scope reconcile_scope.


(** [r.status.SetDegraded(...)] followed by [return res, ret]. *)
Definition degraded {A} (reason : TigeraStatusReason) (msg : string)
    (err : option error) (res : Result) (ret : option error) : M A :=
  let* _ := emit (SetDegraded reason msg err) in exit res ret.

(** A call that returns [(value, err)]: go on with the value, or run
    the [if err != nil] branch. *)
Definition try {A} (got : result A) (on_err : error -> M A) : M A :=
  match got with Ok a => ret a | Err err => on_err err end.

(** A call that returns only [err]. *)
Definition check (got : option error) (on_err : error -> M unit) : M unit :=
  match got with None => ret tt | Some err => on_err err end.

(** The loop over the rendered components (lines 648-653 of the log
    collector, 501-506 of the API server). *)
Fixpoint applyComponents (h : Helpers) (components : list Component) : M unit :=
  match components with
  | [] => ret tt
  | comp :: rest =>
      let* _ := emit (CreateOrUpdateOrDelete comp) in
      let* _ := check (CreateOrUpdateOrDelete_ h comp) (fun err =>
        degraded ResourceUpdateError "Error creating / updating resource"
          (Some err) Done (Some err)) in
      applyComponents h rest
  end.

(** [reconcile.Result{RequeueAfter: utils.StandardRetry}]. *)
Definition Retry : Result := mkResult StandardRetry.

End steps.

(** ** [pkg/controller/logcollector] *)
Module logcollector.
Import operatorv1 corev1 certificatemanagement render reconcile effects world steps.
Local Open Scope reconcile_scope.

Definition ResourceName : string := "log-collector".

(** The reconciler's own fields; the two ready flags are what
    [IsReady] answers during this invocation. *)
Record ReconcileLogCollector := mkReconciler {
  client : Client;
  provider : Provider;
  clusterDomain : string;
  licenseAPIReady : bool;
  tierWatchReady : bool;
  multiTenant : bool;
  externalElastic : bool
}.

(** [GetLogCollector], lines 186-204. *)
Definition GetLogCollector (h : Helpers) (cli : Client) : result LogCollector :=
  match GetLogCollector_ cli with
  | Err err => Err err
  | Ok instance =>
      match AdditionalStores (Spec instance) with
      | Some stores =>
          match Syslog stores with
          | Some syslog =>
              match ParseEndpoint h (Endpoint syslog) with
              | Some err =>
                  Err (Errorf ("syslog config has invalid Endpoint: " ++ Error err))
              | None => Ok instance
              end
          | None => Ok instance
          end
      | None => Ok instance
      end
  end.

Definition set_CollectProcessPath (v : option CollectProcessPathOption)
    (instance : LogCollector) : LogCollector :=
  let s := Spec instance in
  mkLogCollector (Meta instance)
    (mkLCSpec (AdditionalStores s) (AdditionalSources s) v
       (MultiTenantManagementClusterNamespace s) (FluentdDaemonSet s)
       (EKSLogForwarderDeployment s))
    (Status instance).

(** Assignment through [instance.Spec.AdditionalStores.Syslog]. *)
Definition set_Syslog (syslog : SyslogStoreSpec) (instance : LogCollector) : LogCollector :=
  let s := Spec instance in
  match AdditionalStores s with
  | Some stores =>
      mkLogCollector (Meta instance)
        (mkLCSpec (Some (mkStores (S3 stores) (Some syslog) (Splunk stores)))
           (AdditionalSources s) (CollectProcessPath s)
           (MultiTenantManagementClusterNamespace s) (FluentdDaemonSet s)
           (EKSLogForwarderDeployment s))
        (Status instance)
  | None => instance
  end.

Definition set_Conditions (c : list Condition) (instance : LogCollector) : LogCollector :=
  mkLogCollector (Meta instance) (Spec instance) (mkLCStatus (State (Status instance)) c).

Definition set_State (st : string) (instance : LogCollector) : LogCollector :=
  mkLogCollector (Meta instance) (Spec instance) (mkLCStatus st (Conditions (Status instance))).

(** [fillDefaults], lines 208-244: the instance after the call and the
    names of the fields that were defaulted. *)
Definition fillDefaults (instance : LogCollector) : LogCollector * list string :=
  let modifiedFields : list string := [] in
  let '(instance, modifiedFields) :=
    match CollectProcessPath (Spec instance) with
    | None =>
        (set_CollectProcessPath (Some CollectProcessPathEnable) instance,
         (modifiedFields ++ ["CollectProcessPath"])%list)
    | Some _ => (instance, modifiedFields)
    end in
  match AdditionalStores (Spec instance) with
  | Some stores =>
      match Syslog stores with
      | Some syslog =>
          let '(syslog, modifiedFields) :=
            if Nat.eqb (len (LogTypes syslog)) 0 then
              (mkSyslog (Endpoint syslog) (PacketSize syslog)
                 (Some [SyslogLogAudit; SyslogLogDNS; SyslogLogFlows])
                 (Encryption syslog),
               (modifiedFields ++ ["AdditionalStores.Syslog.LogTypes"])%list)
            else (syslog, modifiedFields) in
          let '(syslog, modifiedFields) :=
            if Nat.eqb (String.length (Encryption syslog)) 0 then
              (mkSyslog (Endpoint syslog) (PacketSize syslog) (LogTypes syslog)
                 EncryptionNone,
               (modifiedFields ++ ["AdditionalStores.Syslog.Encryption"])%list)
            else (syslog, modifiedFields) in
          (set_Syslog syslog instance, modifiedFields)
      | None => (instance, modifiedFields)
      end
  | None => (instance, modifiedFields)
  end.

(** [getS3Credential], lines 712-741. *)
Definition getS3Credential (cli : Client) : result (option S3Credential) :=
  match GetSecret cli S3FluentdSecretName OperatorNamespace with
  | Err err =>
      if IsNotFound err then Ok None
      else Err (Errorf ("failed to read secret " ++ fmt_q S3FluentdSecretName
                          ++ ": " ++ Error err))
  | Ok secret =>
      match Data secret !! S3KeyIdName with
      | Some (_ :: _ as kId) =>
          match Data secret !! S3KeySecretName with
          | Some (_ :: _ as kSecret) => Ok (Some (mkS3Credential kId kSecret))
          | _ => Err (Errorf ("expected secret " ++ fmt_q S3FluentdSecretName
                                ++ " to have a field named " ++ fmt_q S3KeySecretName))
          end
      | _ => Err (Errorf ("expected secret " ++ fmt_q S3FluentdSecretName
                            ++ " to have a field named " ++ fmt_q S3KeyIdName))
      end
  end.

(** [getSplunkCredential], lines 743-765. *)
Definition getSplunkCredential (cli : Client) : result (option SplunkCredential) :=
  match GetSecret cli SplunkFluentdTokenSecretName OperatorNamespace with
  | Err err =>
      if IsNotFound err then Ok None
      else Err (Errorf ("failed to read secret " ++ fmt_q SplunkFluentdTokenSecretName
                          ++ ": " ++ Error err))
  | Ok tokenSecret =>
      match Data tokenSecret !! SplunkFluentdSecretTokenKey with
      | Some (_ :: _ as token) => Ok (Some (mkSplunkCredential token))
      | _ => Err (Errorf ("expected secret " ++ fmt_q SplunkFluentdTokenSecretName
                            ++ " to have a field named "
                            ++ fmt_q SplunkFluentdSecretTokenKey))
      end
  end.

(** [getFluentdFilters], lines 767-784. *)
Definition getFluentdFilters (cli : Client) : result (option FluentdFilters) :=
  match GetConfigMap cli FluentdFilterConfigMapName OperatorNamespace with
  | Err err =>
      if IsNotFound err then Ok None
      else Err (Errorf ("failed to read ConfigMap " ++ fmt_q FluentdFilterConfigMapName
                          ++ ": " ++ Error err))
  | Ok cm =>
      Ok (Some (mkFilters (str_at_key (cm_Data cm) FluentdFilterFlowName)
                          (str_at_key (cm_Data cm) FluentdFilterDNSName)))
  end.

(** [getEksCloudwatchLogConfig], lines 786-828.  [interval] is an
    [int32]; it is only compared with 0 and passed on. *)
Definition getEksCloudwatchLogConfig (cli : Client) (interval : Z)
    (region group prefix : string) : result (option EksCloudwatchLogConfig) :=
  if String.eqb region EmptyString then Err (Errorf "missing AWS region info")
  else if String.eqb group EmptyString then
    Err (Errorf "missing Cloudwatch log group name")
  else
    let prefix := if String.eqb prefix EmptyString then "kube-apiserver-audit-" else prefix in
    let interval := if Z.eqb interval 0 then 60%Z else interval in
    match GetSecret cli EksLogForwarderSecret OperatorNamespace with
    | Err err =>
        if IsNotFound err then Ok None
        else Err (Errorf ("failed to read Secret " ++ fmt_q EksLogForwarderSecret
                            ++ ": " ++ Error err))
    | Ok secret =>
        if Nat.eqb (length (at_key (Data secret) EksLogForwarderAwsId)) 0
           || Nat.eqb (length (at_key (Data secret) EksLogForwarderAwsKey)) 0
        then Err (Errorf "incomplete Cloudwatch credentials")
        else
          Ok (Some (mkEksConfig
                      (at_key (Data secret) EksLogForwarderAwsId)
                      (at_key (Data secret) EksLogForwarderAwsKey)
                      region group prefix interval))
    end.

(** [getSysLogCertificate], lines 830-850. *)
Definition getSysLogCertificate (cli : Client) : result (option Certificate) :=
  match GetConfigMap cli SyslogCAConfigMapName OperatorNamespace with
  | Err err =>
      if IsNotFound err then Ok None
      else Err (Errorf ("failed to read ConfigMap " ++ fmt_q SyslogCAConfigMapName
                          ++ ": " ++ Error err))
  | Ok cm =>
      if Nat.eqb (String.length (str_at_key (cm_Data cm) TLSCertKey)) 0 then Ok None
      else Ok (Some (NewCertificate SyslogCAConfigMapName OperatorNamespace
                       (str_at_key (cm_Data cm) TLSCertKey)))
  end.


(** The loop of lines 511-517: is [IDSEvents] among the log types? *)
Definition hasIDSEvents (logTypes : list SyslogLogType) : bool :=
  existsb (fun l => String.eqb l SyslogLogIDSEvents) logTypes.

(** Lines 532-534 and 620-622: EKS with an [EksCloudwatchLog] source. *)
Definition eksCloudwatchLog (installation : InstallationSpec)
    (instance : LogCollector) : option EksCloudwatchLogsSpec :=
  if IsEKS (KubernetesProvider installation) then
    match AdditionalSources (Spec instance) with
    | Some sources => EksCloudwatchLog sources
    | None => None
    end
  else None.


(** *** [ReconcileLogCollector.Reconcile], lines 250-710

    The numbers in the comments are the source lines of the step.
    Reads made inside the package's own helpers ([getS3Credential] and
    its siblings) are answered by the client and not logged. *)
Definition Reconcile (r : ReconcileLogCollector) (h : Helpers) (request : Request)
    : M (Result * option error) :=
  (* 254-265 *)
  let* got := ask ReadLogCollector (GetLogCollector h (client r)) in
  let* instance := try got (fun err =>
    if IsNotFound err then
      let* _ := emit OnCRNotFound in exit Done None
    else
      degraded ResourceReadError "Error querying for LogCollector"
        (Some err) Done (Some err)) in
  (* 267 *)
  let* _ := emit OnCRFound in
  (* 270 *)
  defer (SetMetaData (Meta instance)) (
  (* 273-284: no SetDegraded on these two exits *)
  let* instance :=
    if String.eqb (Name request) ResourceName
       && String.eqb (Namespace request) EmptyString
    then
      let* got := ask ReadTigeraStatus (GetTigeraStatus (client r) ResourceName) in
      let* ts := try got (fun err => exit Done (Some err)) in
      let instance :=
        set_Conditions
          (UpdateStatusCondition h (Conditions (Status instance)) (ts_Conditions ts))
          instance in
      let* _ := emit (StatusUpdate (State (Status instance))
                        (Conditions (Status instance))) in
      let* _ := check (StatusUpdate_ (client r) (State (Status instance))
                         (Conditions (Status instance)))
                  (fun err => exit Done (Some err)) in
      ret instance
    else ret instance in
  (* 287-296 *)
  let '(instance, modifiedFields) := fillDefaults instance in
  let* _ :=
    if Nat.ltb 0 (length modifiedFields) then
      let* _ := emit (Patch (Spec instance)) in
      check (Patch_ (client r) (Spec instance)) (fun err =>
        degraded ResourcePatchError
          ("Failed to set defaults for LogCollector fields: ["
             ++ Join modifiedFields ", " ++ "]")
          (Some err) Done (Some err))
    else ret tt in
  (* 298-301 *)
  let* ready := ask ReadAPIServerReady (IsAPIServerReady h) in
  let* _ :=
    if negb ready then
      degraded ResourceNotReady "Waiting for Tigera API server to be ready"
        None Done None
    else ret tt in
  (* 304-307 *)
  let* _ :=
    if negb (tierWatchReady r) then
      degraded ResourceNotReady "Waiting for Tier watch to be established"
        None Retry None
    else ret tt in
  (* 310-319 *)
  let* got := ask ReadTier (GetTier (client r) TigeraComponentTierName) in
  let* _ := check got (fun err =>
    if IsNotFound err then
      degraded ResourceNotReady
        "Waiting for allow-tigera tier to be created, see the 'tiers' TigeraStatus for more information"
        (Some err) Retry None
    else
      degraded ResourceNotReady "Error querying allow-tigera tier"
        (Some err) Done (Some err)) in
  (* 321-324 *)
  let* _ :=
    if negb (licenseAPIReady r) then
      degraded ResourceNotReady "Waiting for LicenseKeyAPI to be ready"
        None Retry None
    else ret tt in
  (* 326-334 *)
  let* got := ask ReadLicenseKey (FetchLicenseKey h) in
  let* license := try got (fun err =>
    if IsNotFound err then
      degraded ResourceNotFound "License not found" (Some err) Retry None
    else
      degraded ResourceReadError "Error querying license" (Some err) Retry None) in
  (* 339-347 *)
  let* got := ask ReadInstallation (GetInstallation h) in
  let* vi := try got (fun err =>
    if IsNotFound err then
      degraded ResourceNotFound "Installation not found" (Some err) Done (Some err)
    else
      degraded ResourceReadError "Error querying installation"
        (Some err) Done (Some err)) in
  let variant := fst vi in
  let installation := snd vi in
  (* 349-353 *)
  let* got := ask ReadPullSecrets (GetNetworkingPullSecrets h installation) in
  let* pullSecrets := try got (fun err =>
    degraded ResourceReadError "Error retrieving pull secrets"
      (Some err) Done (Some err)) in
  (* 357-366 *)
  let* got := ask ReadManagementClusterConnection (GetManagementClusterConnection h) in
  let* managementClusterConnection := try got (fun err =>
    if negb (IsNotFound err) then
      degraded ResourceNotFound
        "An error occurred while looking for a ManagementClusterConnection"
        (Some err) Done (Some err)
    else ret None) in
  let managedCluster := notNil managementClusterConnection in
  (* 368-372 *)
  let* got := ask ReadManagementCluster (GetManagementCluster h) in
  let* managementCluster := try got (fun err =>
    degraded ResourceReadError "Error reading ManagementCluster"
      (Some err) Done (Some err)) in
  (* 374-378 *)
  let* got := ask ReadCA (CertificateManagerCreate h) in
  let* _ := check got (fun err =>
    degraded ResourceCreateError "Unable to create the Tigera CA"
      (Some err) Done (Some err)) in
  (* 381-386 *)
  let httpInputServiceNames :=
    GetServiceDNSNames h FluentdInputService LogCollectorNamespace (clusterDomain r) in
  let* got := ask (ReadKeyPair FluentdPrometheusTLSSecretName)
                (GetOrCreateKeyPair h FluentdPrometheusTLSSecretName OperatorNamespace
                   (FluentdPrometheusTLSSecretName :: httpInputServiceNames)) in
  let* fluentdKeyPair := try got (fun err =>
    degraded ResourceCreateError "Error creating TLS certificate"
      (Some err) Done (Some err)) in
  (* 388-395 *)
  let* got := ask (ReadCertificate PrometheusClientTLSSecretName OperatorNamespace)
                (GetCertificate h PrometheusClientTLSSecretName OperatorNamespace) in
  let* found := try got (fun err =>
    degraded ResourceReadError "Failed to get certificate"
      (Some err) Done (Some err)) in
  let* prometheusCertificate :=
    match found with
    | None =>
        degraded ResourceNotReady
          "Prometheus secrets are not available yet, waiting until they become available"
          None Retry None
    | Some c => ret c
    end in
  (* 398-402 *)
  let tenantNamespace := MultiTenantManagementClusterNamespace (Spec instance) in
  let multiTenantManagement :=
    multiTenant r && notNil managementCluster in
  let* _ :=
    if negb (String.eqb tenantNamespace EmptyString) && negb multiTenantManagement then
      degraded ResourceValidationError
        "multiTenantManagementClusterNamespace can only be set on multi-tenant management clusters"
        None Done None
    else ret tt in
  (* 406-429 *)
  let* linseed :=
    if managedCluster then ret (VoltronLinseedPublicCert, OperatorNamespace, None)
    else if multiTenantManagement then
      let* _ :=
        if String.eqb tenantNamespace EmptyString then
          degraded ResourceValidationError
            "multiTenantManagementClusterNamespace is not set" None Done None
        else ret tt in
      let* got := ask (ReadTenant tenantNamespace) (GetTenant h tenantNamespace) in
      let* tenant := try got (fun err =>
        degraded ResourceNotReady
          ("Failed to retrieve tenant in ns " ++ tenantNamespace)
          (Some err) Done (Some err)) in
      ret (TigeraLinseedSecret, tenantNamespace, tenant)
    else ret (TigeraLinseedSecret, OperatorNamespace, None) in
  let linseedCertName := fst (fst linseed) in
  let linseedCertNamespace := snd (fst linseed) in
  let tenant : option Tenant := snd linseed in
  (* 430-439 *)
  let* got := ask (ReadCertificate linseedCertName linseedCertNamespace)
                (GetCertificate h linseedCertName linseedCertNamespace) in
  let* found := try got (fun err =>
    degraded ResourceValidationError
      ("Failed to retrieve / validate  " ++ linseedCertNamespace ++ "/" ++ linseedCertName)
      (Some err) Done (Some err)) in
  let* linseedCertificate :=
    match found with
    | None =>
        degraded ResourceNotReady
          ("Linseed certificate (" ++ linseedCertNamespace ++ "/" ++ linseedCertName
             ++ ") is not yet available")
          None Done None
    | Some c => ret c
    end in
  (* 442-446 *)
  let* got := ask ReadTrustedBundle
                (CreateTrustedBundleWithSystemRootCertificates h
                   [prometheusCertificate; linseedCertificate]) in
  let* trustedBundle := try got (fun err =>
    degraded ResourceCreateError "Unable to create tigera-ca-bundle configmap"
      (Some err) Done (Some err)) in
  (* 448 *)
  let* _ := emit (AddToStatusManager LogCollectorNamespace) in
  (* 450-454: [err] is nil here, the call of line 442 succeeded *)
  let exportLogs := IsFeatureActive h license ExportLogsFeature in
  let* _ :=
    if negb exportLogs && notNil (AdditionalStores (Spec instance)) then
      degraded ResourceValidationError
        "Feature is not active - License does not support feature: export-logs"
        None Done None
    else ret tt in
  (* 456-469 *)
  let* s3Credential :=
    match AdditionalStores (Spec instance) with
    | Some stores =>
        match S3 stores with
        | Some _ =>
            let* cred := try (getS3Credential (client r)) (fun err =>
              degraded ResourceValidationError "Error with S3 credential secret"
                (Some err) Done (Some err)) in
            match cred with
            | None =>
                degraded ResourceNotFound "S3 credential secret does not exist"
                  None Done None
            | Some c => ret (Some c)
            end
        | None => ret None
        end
    | None => ret None
    end in
  (* 471-484 *)
  let* splunkCredential :=
    match AdditionalStores (Spec instance) with
    | Some stores =>
        match Splunk stores with
        | Some _ =>
            let* cred := try (getSplunkCredential (client r)) (fun err =>
              degraded ResourceValidationError "Error with Splunk credential secret"
                (Some err) Done (Some err)) in
            match cred with
            | None =>
                degraded ResourceNotFound "Splunk credential secret does not exist"
                  None Done None
            | Some c => ret (Some c)
            end
        | None => ret None
        end
    | None => ret None
    end in
  (* 486-499 *)
  let* syslogCertificate :=
    match AdditionalStores (Spec instance) with
    | Some stores =>
        match Syslog stores with
        | Some syslog =>
            if String.eqb (Encryption syslog) EncryptionTLS then
              try (getSysLogCertificate (client r)) (fun err =>
                degraded ResourceReadError "Error loading Syslog certificate"
                  (Some err) Done (Some err))
            else ret None
        | None => ret None
        end
    | None => ret None
    end in
  let useSyslogCertificate := notNil syslogCertificate in
  let trustedBundle :=
    match syslogCertificate with
    | Some syslogCert => AddCertificates trustedBundle syslogCert
    | None => trustedBundle
    end in
  (* 501-521: the function-level [err] is nil here, so the exit of
     line 515 returns a nil error *)
  let* _ :=
    match AdditionalStores (Spec instance) with
    | Some stores =>
        match Syslog stores with
        | Some syslog =>
            match LogTypes syslog with
            | Some logTypes =>
                if managedCluster && hasIDSEvents logTypes then
                  degraded ResourceValidationError
                    "IDSEvents option is not supported for Syslog config in a managed cluster"
                    None Done None
                else ret tt
            | None => ret tt
            end
        | None => ret tt
        end
    | None => ret tt
    end in
  (* 523-527 *)
  let* filters := try (getFluentdFilters (client r)) (fun err =>
    degraded ResourceReadError "Error retrieving Fluentd filters"
      (Some err) Done (Some err)) in
  (* 529-563 *)
  let* eks :=
    match eksCloudwatchLog installation instance with
    | Some source =>
        let* got := ask ReadElasticsearchClusterConfig
                      (GetElasticsearchClusterConfig h) in
        let* esClusterConfig := try got (fun err =>
          if IsNotFound err then
            degraded ResourceNotReady
              "Elasticsearch cluster configuration is not available, waiting for it to become available"
              (Some err) Done None
          else
            degraded ResourceReadError
              "Failed to get the elasticsearch cluster configuration"
              (Some err) Done (Some err)) in
        let* eksConfig :=
          try (getEksCloudwatchLogConfig (client r) (FetchInterval source)
                 (Region source) (GroupName source) (StreamPrefix source))
            (fun err =>
               degraded ResourceReadError
                 "Error retrieving EKS Cloudwatch Logs configuration"
                 (Some err) Done (Some err)) in
        let* got := ask (ReadKeyPair EKSLogForwarderTLSSecretName)
                      (GetOrCreateKeyPair h EKSLogForwarderTLSSecretName
                         OperatorNamespace [EKSLogForwarderTLSSecretName]) in
        let* eksLogForwarderKeyPair := try got (fun err =>
          degraded ResourceCreateError
            "Error creating eks log forwarder TLS certificate"
            (Some err) Done (Some err)) in
        ret (eksConfig, Some esClusterConfig, Some eksLogForwarderKeyPair)
    | None => ret (None, None, None)
    end in
  let eksConfig : option EksCloudwatchLogConfig := fst (fst eks) in
  let esClusterConfig : option ClusterConfig := snd (fst eks) in
  let eksLogForwarderKeyPair : option KeyPair := snd eks in
  (* 565-569 *)
  let* got := ask ReadPacketCaptureAPI (GetPacketCaptureAPI h) in
  let* packetcaptureapi := try got (fun err =>
    if negb (IsNotFound err) then
      degraded ResourceReadError "Error querying PacketCapture CR"
        (Some err) Done (Some err)
    else ret None) in
  (* 572-582 *)
  let* got := ask ReadNonClusterHost (GetNonClusterHost h) in
  let* nonclusterhost := try got (fun err =>
    degraded ResourceReadError "Failed to query NonClusterHost resource"
      (Some err) Done (Some err)) in
  let* _ :=
    match nonclusterhost with
    | Some nch =>
        check (ParseEndpoint h (nch_Endpoint nch)) (fun err =>
          degraded ResourceReadError
            "Failed to read parse endpoint from NonClusterHost resource"
            (Some err) Done (Some err))
    | None => ret tt
    end in
  (* 587-609 *)
  let fluentdCfg :=
    mkFluentdCfg instance esClusterConfig s3Credential splunkCredential filters
      eksConfig pullSecrets installation (clusterDomain r) OSTypeLinux
      (Some fluentdKeyPair) (Some trustedBundle) managedCluster
      useSyslogCertificate tenant (externalElastic r) eksLogForwarderKeyPair
      packetcaptureapi nonclusterhost in
  let comp := Fluentd fluentdCfg in
  (* 611-627 *)
  let certificateComponent :=
    mkCertCfg LogCollectorNamespace [FluentdNodeName]
      [NewKeyPairOption (Some fluentdKeyPair) true true] (Some trustedBundle) in
  let certificateComponent :=
    match eksCloudwatchLog installation instance with
    | Some _ =>
        mkCertCfg (cc_Namespace certificateComponent)
          (cc_ServiceAccounts certificateComponent ++ [EKSLogForwarderName])%list
          (cc_KeyPairOptions certificateComponent
             ++ [NewKeyPairOption eksLogForwarderKeyPair true true])%list
          (cc_TrustedBundle certificateComponent)
    | None => certificateComponent
    end in
  (* 629-641 *)
  let setUp :=
    NewSetup (mkSetUpCfg (IsOpenShift (provider r)) installation pullSecrets
                LogCollectorNamespace PSSPrivileged true) in
  let components := [setUp; comp; CertificateManagement certificateComponent] in
  (* 643-646 *)
  let* _ := emit (ApplyImageSet variant [comp]) in
  let* _ := check (ApplyImageSet_ h variant [comp]) (fun err =>
    degraded ResourceUpdateError "Error with images from ImageSet"
      (Some err) Done (Some err)) in
  (* 648-653 *)
  let* _ := applyComponents h components in
  (* 656-659: no SetDegraded on this exit *)
  let* got := ask ReadWindowsNodes (HasWindowsNodes h) in
  let* hasWindowsNodes := try got (fun err => exit Done (Some err)) in
  (* 661-693 *)
  let* _ :=
    if hasWindowsNodes : bool then
      let fluentdCfg :=
        mkFluentdCfg instance esClusterConfig s3Credential splunkCredential filters
          eksConfig pullSecrets installation (clusterDomain r) OSTypeWindows
          (Some fluentdKeyPair) (Some trustedBundle) managedCluster
          useSyslogCertificate None false eksLogForwarderKeyPair None None in
      let comp := Fluentd fluentdCfg in
      let* _ := emit (ApplyImageSet variant [comp]) in
      let* _ := check (ApplyImageSet_ h variant [comp]) (fun err =>
        degraded ResourceUpdateError "Error with images from ImageSet"
          (Some err) Done (Some err)) in
      applyComponents h [comp]
    else ret tt in
  (* 696 *)
  let* _ := emit ClearDegraded in
  (* 698-702 *)
  let* _ := if negb (IsAvailable h) then exit Retry None else ret tt in
  (* 705-709 *)
  let instance := set_State TigeraStatusReady instance in
  let* _ := emit (StatusUpdate (State (Status instance))
                    (Conditions (Status instance))) in
  let* _ := check (StatusUpdate_ (client r) (State (Status instance))
                     (Conditions (Status instance)))
              (fun err => exit Done (Some err)) in
  ret (Done, None)).

End logcollector.

(** ** The API server controller *)
Module apiserver.
Import operatorv1 corev1 certificatemanagement render reconcile effects world steps.
Local Open Scope reconcile_scope.

Definition ResourceName : string := "apiserver".

(** The reconciler's own fields; [tierWatchReady] is what [IsReady]
    answers during this invocation. *)
Record ReconcileAPIServer := mkReconciler {
  client : Client;
  provider : Provider;
  enterpriseCRDsExist : bool;
  clusterDomain : string;
  tierWatchReady : bool;
  multiTenant : bool;
  kubernetesVersion : option VersionInfo
}.

(** [validateAPIServerResource], lines 524-533. *)
Definition validateAPIServerResource (h : Helpers)
    (instance : operatorv1_resources.APIServer) : option error :=
  match APIServerDeployment (as_Spec instance) with
  | Some d =>
      match ValidateReplicatedPodResourceOverrides h d with
      | Some err =>
          Some (Wrapf "APIServer spec.APIServerDeployment is not valid: " err)
      | None => None
      end
  | None => None
  end.

(** [maintainFinalizer], lines 539-543: one call of
    [utils.MaintainInstallationFinalizer] for [render.APIServerFinalizer]
    with the calico-apiserver Deployment as secondary resource. *)
Definition maintainFinalizer (h : Helpers)
    (apiserver : option operatorv1_resources.APIServer) : M (option error) :=
  let present := notNil apiserver in
  let* _ := emit (MaintainInstallationFinalizer present APIServerFinalizer) in
  ret (MaintainInstallationFinalizer_ h present APIServerFinalizer).

(** [canCleanupLegacyNamespace], lines 551-611. *)
Definition canCleanupLegacyNamespace (r : ReconcileAPIServer) (h : Helpers)
    (variant : ProductVariant) : bool :=
  let newNamespace := "calico-system" in
  let deploymentName := "calico-apiserver" in
  let oldNamespace :=
    if String.eqb variant Calico then "calico-apiserver" else "tigera-system" in
  match GetDeploymentAvailableReplicas (client r) deploymentName newNamespace with
  | Err _ => false
  | Ok newReplicas =>
      if Z.eqb newReplicas 0 then false
      else
        let oldDeploy :=
          match GetDeploymentAvailableReplicas (client r) deploymentName oldNamespace with
          | Err err => if negb (IsNotFound err) then None else Some 0%Z
          | Ok n => Some n
          end in
        match oldDeploy with
        | None => false
        | Some oldReplicas =>
            if Z.ltb 0 oldReplicas then false
            else if negb (IsAPIServerReady h) then false
            else
              match GetTigeraStatus (client r) ResourceName with
              | Err _ => false
              | Ok ts => ts_Available ts
              end
        end
  end.

Definition set_Conditions (c : list Condition)
    (instance : operatorv1_resources.APIServer) : operatorv1_resources.APIServer :=
  mkAPIServer (as_Meta instance) (as_Spec instance) (as_State instance) c.

Definition set_State (st : string)
    (instance : operatorv1_resources.APIServer) : operatorv1_resources.APIServer :=
  mkAPIServer (as_Meta instance) (as_Spec instance) st (as_Conditions instance).

(** The variables declared at lines 311-317, which only the
    Enterprise branch assigns. *)
Record enterpriseData := mkEnterprise {
  tunnelCAKeyPair : option KeyPair;
  trustedBundle : option TrustedBundle;
  applicationLayer : option ApplicationLayer;
  managementCluster : option ManagementCluster;
  managementClusterConnection : option ManagementClusterConnection;
  keyValidatorConfig : option KeyValidatorConfig;
  includeV3NetworkPolicy : bool
}.

(** Their zero values. *)
Definition noEnterpriseData : enterpriseData :=
  mkEnterprise None None None None None None false.

(** *** [ReconcileAPIServer.Reconcile], lines 224-522 *)
Definition Reconcile (r : ReconcileAPIServer) (h : Helpers) (request : Request)
    : M (Result * option error) :=
  (* 228-237 *)
  let* got := ask ReadAPIServer (GetAPIServer h) in
  let* instance := try got (fun err =>
    if IsNotFound err then
      let* _ := emit OnCRNotFound in
      let* ferr := maintainFinalizer h None in
      exit Done ferr
    else
      degraded ResourceReadError
        ("An error occurred when querying the APIServer resource: " ++ GetAPIServerMsg h)
        (Some err) Done (Some err)) in
  (* 238 *)
  let* _ := emit OnCRFound in
  (* 242-245 *)
  let* _ := check (validateAPIServerResource h instance) (fun err =>
    degraded ResourceValidationError "APIServer is invalid" (Some err) Done (Some err)) in
  (* 248 *)
  defer (SetMetaData (as_Meta instance)) (
  (* 251-262: no SetDegraded on these two exits *)
  let* instance :=
    if String.eqb (Name request) ResourceName
       && String.eqb (Namespace request) EmptyString
    then
      let* got := ask ReadTigeraStatus (GetTigeraStatus (client r) ResourceName) in
      let* ts := try got (fun err => exit Done (Some err)) in
      let instance :=
        set_Conditions
          (UpdateStatusCondition h (as_Conditions instance) (ts_Conditions ts))
          instance in
      let* _ := emit (StatusUpdate (as_State instance) (as_Conditions instance)) in
      let* _ := check (StatusUpdate_ (client r) (as_State instance)
                         (as_Conditions instance))
                  (fun err => exit Done (Some err)) in
      ret instance
    else ret instance in
  (* 265-273 *)
  let* got := ask ReadInstallation (GetInstallation h) in
  let* vi := try got (fun err =>
    if IsNotFound err then
      degraded ResourceNotFound "Installation not found" (Some err) Done (Some err)
    else
      degraded ResourceReadError "Error querying installation"
        (Some err) Done (Some err)) in
  let installationSpec := snd vi in
  (* 274-277 *)
  let* _ :=
    if String.eqb (Variant installationSpec) EmptyString then
      degraded ResourceNotReady "Waiting for Installation Variant to be set"
        None Done None
    else ret tt in
  (* 279-283 *)
  let* got := ask ReadCA (CertificateManagerCreate h) in
  let* _ := check got (fun err =>
    degraded ResourceCreateError "Unable to create the Tigera CA"
      (Some err) Done (Some err)) in
  (* 285-290 *)
  let secretName := CalicoAPIServerTLSSecretName in
  let dnsNames :=
    GetServiceDNSNames h APIServerServiceName APIServerNamespace (clusterDomain r) in
  let* got := ask (ReadKeyPair secretName)
                (GetOrCreateKeyPair h secretName OperatorNamespace dnsNames) in
  let* tlsSecret := try got (fun err =>
    degraded ResourceCreateError "Unable to get or create tls key pair"
      (Some err) Done (Some err)) in
  (* 293-300 *)
  let* queryServerTLSSecretCertificateManagementOnly :=
    match inst_CertificateManagement installationSpec with
    | Some _ =>
        let* got := ask (ReadKeyPair "query-server-tls")
                      (GetOrCreateKeyPair h "query-server-tls" OperatorNamespace
                         dnsNames) in
        let* kp := try got (fun err =>
          degraded ResourceCreateError "Unable to get or create tls key pair"
            (Some err) Done (Some err)) in
        ret (Some kp)
    | None => ret None
    end in
  (* 302 *)
  let* _ := emit (AddToStatusManager APIServerNamespace) in
  (* 304-308 *)
  let* got := ask ReadPullSecrets (GetNetworkingPullSecrets h installationSpec) in
  let* pullSecrets := try got (fun err =>
    degraded ResourceReadError "Error retrieving pull secrets"
      (Some err) Done (Some err)) in
  (* 310-429: query enterprise-only data *)
  let* ent :=
    if String.eqb (Variant installationSpec) TigeraSecureEnterprise then
      (* 320-325 *)
      let* got := ask ReadTrustedBundle
                    (CreateNamedTrustedBundleFromSecrets h APIServerResourceName) in
      let* trustedBundle := try got (fun err =>
        degraded ResourceCreateError "Unable to create the trusted bundle"
          (Some err) Done (Some err)) in
      (* 327-331 *)
      let* got := ask ReadApplicationLayer (GetApplicationLayer h) in
      let* applicationLayer := try got (fun err =>
        degraded ResourceReadError "Error reading ApplicationLayer"
          (Some err) Done (Some err)) in
      (* 333-337 *)
      let* got := ask ReadManagementCluster (GetManagementCluster h) in
      let* managementCluster := try got (fun err =>
        degraded ResourceReadError "Error reading ManagementCluster"
          (Some err) Done (Some err)) in
      (* 339-343 *)
      let* got := ask ReadManagementClusterConnection
                    (GetManagementClusterConnection h) in
      let* managementClusterConnection := try got (fun err =>
        degraded ResourceReadError "Error reading ManagementClusterConnection"
          (Some err) Done (Some err)) in
      (* 345-349 *)
      let* _ :=
        match managementClusterConnection, managementCluster with
        | Some _, Some _ =>
            let err :=
              Errorf "having both a ManagementCluster and a ManagementClusterConnection is not supported" in
            degraded ResourceValidationError EmptyString (Some err) Done (Some err)
        | _, _ => ret tt
        end in
      (* 353-369 *)
      let* tunnelCAKeyPair :=
        match managementCluster with
        | Some mc =>
            match mc_TLS mc with
            | Some tls =>
                if negb (multiTenant r) then
                  let tunnelSecretName := SecretName tls in
                  let* got := ask (ReadSecret tunnelSecretName OperatorNamespace)
                                (GetSecret_ h tunnelSecretName OperatorNamespace) in
                  let* tunnelCASecret := try got (fun err =>
                    degraded ResourceReadError "Unable to fetch the tunnel secret"
                      (Some err) Done (Some err)) in
                  match tunnelCASecret with
                  | Some secret => ret (Some (NewKeyPair secret))
                  | None => ret None
                  end
                else ret None
            | None => ret None
            end
        | None => ret None
        end in
      (* 377-386 *)
      let* includeV3NetworkPolicy :=
        if tierWatchReady r then
          let* got := ask ReadTier (GetTier (client r) TigeraComponentTierName) in
          match got with
          | Some err =>
              if negb (IsNotFound err) && negb (IsNoMatchError err) then
                degraded ResourceReadError "Error querying allow-tigera tier"
                  (Some err) Done (Some err)
              else ret false
          | None => ret true
          end
        else ret false in
      (* 388-394 *)
      let* got := ask (ReadCertificate PrometheusClientTLSSecretName OperatorNamespace)
                    (GetCertificate h PrometheusClientTLSSecretName OperatorNamespace) in
      let* prometheusCertificate := try got (fun err =>
        degraded ResourceReadError "Failed to get certificate"
          (Some err) Done (Some err)) in
      let trustedBundle :=
        match prometheusCertificate with
        | Some c => AddCertificates trustedBundle c
        | None => trustedBundle
        end in
      (* 396-402 *)
      let* got := ask ReadAuthentication (GetAuthentication h) in
      let* authenticationCR := try got (fun err =>
        if negb (IsNotFound err) then
          degraded ResourceReadError "Error while fetching Authentication"
            (Some err) Done (Some err)
        else ret None) in
      (* 404-428 *)
      let* kv :=
        match authenticationCR with
        | Some auth =>
            if String.eqb (auth_State auth) TigeraStatusReady then
              let* trustedBundle :=
                if DexEnabled h auth then
                  let secret := DexTLSSecretName in
                  let* got := ask (ReadCertificate secret OperatorNamespace)
                                (GetCertificate h secret OperatorNamespace) in
                  let* found := try got (fun err =>
                    degraded CertificateError ("Failed to retrieve " ++ secret)
                      (Some err) Done (Some err)) in
                  match found with
                  | None =>
                      degraded ResourceNotReady
                        ("Waiting for secret '" ++ secret ++ "' to become available")
                        None Done None
                  | Some certificate => ret (AddCertificates trustedBundle certificate)
                  end
                else ret trustedBundle in
              let* got := ask ReadKeyValidatorConfig (GetKeyValidatorConfig h auth) in
              let* keyValidatorConfig := try got (fun err =>
                degraded ResourceReadError "Failed to get KeyValidator Config"
                  (Some err) Done (Some err)) in
              ret (trustedBundle, Some keyValidatorConfig)
            else ret (trustedBundle, None)
        | None => ret (trustedBundle, None)
        end in
      ret (mkEnterprise tunnelCAKeyPair (Some (fst kv)) applicationLayer
             managementCluster managementClusterConnection (snd kv)
             includeV3NetworkPolicy)
    else ret noEnterpriseData in
  (* 431-435 *)
  let* got := ask ReadK8sServiceEndpoint (PopulateK8sServiceEndPoint h) in
  let* _ := check got (fun err =>
    degraded ResourceReadError "Error reading services endpoint configmap"
      (Some err) Done (Some err)) in
  (* 437-441 *)
  let* ferr := maintainFinalizer h (Some instance) in
  let* _ := check ferr (fun err =>
    degraded ResourceReadError "Error setting finalizer on Installation"
      (Some err) Done (Some err)) in
  (* 449-466 *)
  let apiServerCfg :=
    mkAPIServerCfg (K8sEndpoint h) installationSpec (as_Spec instance) false
      (applicationLayer ent) (managementCluster ent)
      (managementClusterConnection ent) (Some tlsSecret) pullSecrets
      (IsOpenShift (provider r)) (trustedBundle ent) (multiTenant r)
      (keyValidatorConfig ent) (kubernetesVersion r)
      (canCleanupLegacyNamespace r h (Variant installationSpec))
      queryServerTLSSecretCertificateManagementOnly in
  (* 468-475 *)
  let components : list Component :=
    if includeV3NetworkPolicy ent then [APIServerPolicy apiServerCfg] else [] in
  (* 477-481 *)
  let* component := try (render.APIServer apiServerCfg) (fun err =>
    degraded ResourceRenderingError "Error rendering APIServer"
      (Some err) Done (Some err)) in
  (* 483-494 *)
  let components :=
    (components ++
      [ component;
        CertificateManagement
          (mkCertCfg APIServerNamespace [APIServerServiceAccountName]
             [ NewKeyPairOption (Some tlsSecret) true true;
               NewKeyPairOption (tunnelCAKeyPair ent) false true ]
             (trustedBundle ent)) ])%list in
  (* 496-499 *)
  let* _ := emit (ApplyImageSet (Variant installationSpec) components) in
  let* _ := check (ApplyImageSet_ h (Variant installationSpec) components) (fun err =>
    degraded ResourceUpdateError "Error with images from ImageSet"
      (Some err) Done (Some err)) in
  (* 501-506 *)
  let* _ := applyComponents h components in
  (* 509 *)
  let* _ := emit ClearDegraded in
  (* 511-514 *)
  let* _ := if negb (IsAvailable h) then exit Retry None else ret tt in
  (* 517-521 *)
  let instance := set_State TigeraStatusReady instance in
  let* _ := emit (StatusUpdate (as_State instance) (as_Conditions instance)) in
  let* _ := check (StatusUpdate_ (client r) (as_State instance)
                     (as_Conditions instance))
              (fun err => exit Done (Some err)) in
  ret (Done, None)).

End apiserver.

(** ** Example clusters *)
Module examples.
Import operatorv1 corev1 certificatemanagement render reconcile effects world.

Definition notFound : error := mkError NotFound "not found".

Definition theLogCollector : LogCollector :=
  mkLogCollector (mkOpaque "tigera-secure")
    (mkLCSpec None None None EmptyString None None)
    (mkLCStatus EmptyString []).

Definition theAPIServer : operatorv1_resources.APIServer :=
  mkAPIServer (mkOpaque "tigera-secure") (mkAPIServerSpec None) EmptyString [].

Definition theInstallation : InstallationSpec :=
  mkInstallation TigeraSecureEnterprise EmptyString "testregistry.com/" (Some 2%Z) None.

Definition theCalicoInstallation : InstallationSpec :=
  mkInstallation Calico EmptyString "testregistry.com/" (Some 2%Z) None.

Definition theManagementCluster : ManagementCluster :=
  mkManagementCluster "example.com:1234" None.

Definition theCertificate (name ns : string) : Certificate :=
  mkCertificate name ns "pem".

(** A cluster on which nothing fails: no optional secret or config
    map is there, every read and write succeeds. *)
Definition quietClient : Client :=
  mkClient (Ok theLogCollector)
    (fun _ => Ok (mkTigeraStatus [] true))
    (fun _ => None)
    (fun _ _ => Err notFound)
    (fun _ _ => Err notFound)
    (fun _ _ => Ok 1%Z)
    (fun _ _ => None)
    (fun _ => None).


(** Helpers that all succeed, on a cluster with or without Windows
    nodes, with a ManagementCluster and a connection as given. *)
Definition helpers (windows : bool) (installation : InstallationSpec)
    (mc : option ManagementCluster) (mcc : option ManagementClusterConnection)
    : Helpers :=
  mkHelpers (fun _ => None) (Ok theAPIServer) EmptyString
    (fun _ new => new) true (Ok (mkOpaque "license"))
    (Ok (Variant installation, installation)) (fun _ => Ok [])
    (Ok mcc) (Ok mc) None
    (fun svc ns domain => [svc])
    (fun name _ _ => Ok (mkOpaque name))
    (fun name ns => Ok (Some (theCertificate name ns)))
    (fun _ => Ok None)
    (fun certs => Ok (mkBundle certs))
    (fun _ => Ok (mkBundle []))
    (fun _ _ => true)
    (Ok (mkOpaque "es"))
    (Ok None) (Ok None)
    (fun _ _ => None) (fun _ => None)
    (Ok windows) true
    (Ok None) (fun _ _ => Ok None) (Ok None) (fun _ => false)
    (fun _ => Ok (mkOpaque "kv"))
    None (mkOpaque "endpoint") (fun _ => None)
    (fun _ _ => None) (fun _ _ => false).

Definition logCollectorReconciler (cli : Client) : logcollector.ReconcileLogCollector :=
  logcollector.mkReconciler cli EmptyString "cluster.local" true true false false.

Definition apiServerReconciler : apiserver.ReconcileAPIServer :=
  apiserver.mkReconciler quietClient EmptyString true "cluster.local" true false None.


Definition crRequest : Request := mkRequest "tigera-secure" EmptyString.

End examples.

(** ** What can be observed of a reconcile *)
Module observe.
Import operatorv1 render reconcile effects world.

(** The components handed to [CreateOrUpdateOrDelete], in order. *)
Fixpoint applied (tr : list event) : list Component :=
  match tr with
  | [] => []
  | CreateOrUpdateOrDelete c :: rest => c :: applied rest
  | _ :: rest => applied rest
  end.

(** The components handed to [imageset.ApplyImageSet] after rendering,
    in order. *)
Fixpoint rendered (tr : list event) : list Component :=
  match tr with
  | [] => []
  | ApplyImageSet _ comps :: rest => (comps ++ rendered rest)%list
  | _ :: rest => rendered rest
  end.

Definition isFluentd (os : OSType) (c : Component) : bool :=
  match c with
  | Fluentd cfg =>
      match fl_OSType cfg, os with
      | OSTypeLinux, OSTypeLinux | OSTypeWindows, OSTypeWindows => true
      | _, _ => false
      end
  | _ => false
  end.

Definition isAnyFluentd (c : Component) : bool :=
  match c with Fluentd _ => true | _ => false end.

Definition isSetup (c : Component) : bool :=
  match c with NewSetup _ => true | _ => false end.

Definition isCertificateManagement (c : Component) : bool :=
  match c with CertificateManagement _ => true | _ => false end.


Definition isClearDegraded (e : event) : bool :=
  match e with ClearDegraded => true | _ => false end.

Definition isStatusUpdate (e : event) : bool :=
  match e with StatusUpdate _ _ => true | _ => false end.

(** Modelled from the spec: the degraded bit of the shared status
    manager ([pkg/controller/status], not among the sources):
    [SetDegraded] sets it, [ClearDegraded] clears it, nothing else
    that a reconcile does touches it. *)
Definition degraded_step (d : bool) (e : event) : bool :=
  match e with
  | SetDegraded _ _ _ => true
  | ClearDegraded => false
  | _ => d
  end.

Definition degraded_after (d : bool) (tr : list event) : bool :=
  fold_left degraded_step tr d.



(** Reads that only the Enterprise branch of the API server
    controller makes. *)
Definition enterpriseOnly (e : event) : bool :=
  match e with
  | Reads ReadTrustedBundle | Reads ReadApplicationLayer
  | Reads ReadManagementCluster | Reads ReadManagementClusterConnection
  | Reads (ReadSecret _ _) | Reads ReadTier | Reads (ReadCertificate _ _)
  | Reads ReadAuthentication | Reads ReadKeyValidatorConfig => true
  | _ => false
  end.

(** The configurations with which the API server was rendered. *)
Fixpoint apiServerConfigs (comps : list Component) : list APIServerConfiguration :=
  match comps with
  | [] => []
  | APIServerComponent cfg :: rest => cfg :: apiServerConfigs rest
  | APIServerPolicy cfg :: rest => cfg :: apiServerConfigs rest
  | _ :: rest => apiServerConfigs rest
  end.

(** The key pairs handed to the certificate-management component. *)
Fixpoint certificateKeyPairs (comps : list Component) : list KeyPairOption :=
  match comps with
  | [] => []
  | CertificateManagement cfg :: rest =>
      (cc_KeyPairOptions cfg ++ certificateKeyPairs rest)%list
  | _ :: rest => certificateKeyPairs rest
  end.

End observe.

(** ** A small program logic for reconcilers

    [satp pre N X m]: when [m] runs after the events [pre], it either
    goes on with a value and events satisfying [N], or returns from
    [Reconcile] with a result, an error and events satisfying [X]. *)
Module logic.
Import reconcile effects.

Definition satp {A} (pre : list event) (N : A -> list event -> Prop)
    (X : Result -> option error -> list event -> Prop) (m : M A) : Prop :=
  match m with
  | (Next a, l) => N a (pre ++ l)%list
  | (Return r e, l) => X r e (pre ++ l)%list
  end.

(** The same after any events that are all [quiet]. *)
Definition sat {A} (quiet : event -> bool) (N : A -> list event -> Prop)
    (X : Result -> option error -> list event -> Prop) (m : M A) : Prop :=
  forall pre, forallb quiet pre = true -> satp pre N X m.

(** A step that goes on quietly and whose exits satisfy [X]. *)
Definition block_ok {A} (quiet : event -> bool)
    (X : Result -> option error -> list event -> Prop) (m : M A) : Prop :=
  match m with
  | (Next a, l) => forallb quiet l = true
  | (Return r e, l) =>
      forall pre, forallb quiet pre = true -> X r e (pre ++ l)%list
  end.

(** A step that always returns, with exits that satisfy [X]. *)
Definition exit_ok {A} (quiet : event -> bool)
    (X : Result -> option error -> list event -> Prop) (m : M A) : Prop :=
  match m with
  | (Next a, l) => False
  | (Return r e, l) =>
      forall pre, forallb quiet pre = true -> X r e (pre ++ l)%list
  end.

End logic.

(** ** The claims' own words

    Definitions that follow the wording of the claims, to be compared
    with the embedding of the code. *)
Module claims.
Import operatorv1 render reconcile effects world observe.

(** The Syslog store of a LogCollector, when it has one. *)
Definition syslogOf (instance : LogCollector) : option SyslogStoreSpec :=
  match AdditionalStores (Spec instance) with
  | Some stores => Syslog stores
  | None => None
  end.

(** The defaults of a Syslog store: an empty LogTypes becomes Audit,
    DNS and Flows, an empty Encryption becomes None. *)
Definition defaultedSyslog (s : SyslogStoreSpec) : SyslogStoreSpec :=
  mkSyslog (Endpoint s) (PacketSize s)
    (if Nat.eqb (len (LogTypes s)) 0
     then Some [SyslogLogAudit; SyslogLogDNS; SyslogLogFlows] else LogTypes s)
    (if is_empty (Encryption s) then EncryptionNone else Encryption s).

(** The names of the fields that are unset. *)
Definition defaultedFields (instance : LogCollector) : list string :=
  ((match CollectProcessPath (Spec instance) with
    | None => ["CollectProcessPath"] | Some _ => [] end)
   ++ match syslogOf instance with
      | Some s =>
          (if Nat.eqb (len (LogTypes s)) 0
           then ["AdditionalStores.Syslog.LogTypes"] else [])
          ++ (if is_empty (Encryption s)
              then ["AdditionalStores.Syslog.Encryption"] else [])
      | None => []
      end)%list.

(** Events that are neither an apply nor the end of the apply phase. *)
Definition beforeApply (e : event) : bool :=
  match e with
  | CreateOrUpdateOrDelete _ | ClearDegraded | ApplyImageSet _ _ => false
  | _ => true
  end.


(** The reconcile got through the apply phase: it called
    [ClearDegraded]. *)
Definition completed (out : outcome) : bool :=
  existsb isClearDegraded (out_events out).

(** The events of a log-collector reconcile from the first
    [ApplyImageSet] on, when it gets as far as [ClearDegraded]: [flw]
    is the Windows configuration when one is rendered, [ready] the
    conditions written with the Ready state when the status is
    written. *)
Definition applyPhase (variant : ProductVariant) (su : SetUpConfiguration)
    (fl : FluentdConfiguration) (cc : CertificateConfig)
    (flw : option FluentdConfiguration) (ready : option (list Condition))
    (meta : ObjectMeta) : list event :=
  ([ ApplyImageSet variant [Fluentd fl];
     CreateOrUpdateOrDelete (NewSetup su);
     CreateOrUpdateOrDelete (Fluentd fl);
     CreateOrUpdateOrDelete (CertificateManagement cc);
     Reads ReadWindowsNodes ]
   ++ match flw with
      | Some w => [ ApplyImageSet variant [Fluentd w];
                    CreateOrUpdateOrDelete (Fluentd w) ]
      | None => []
      end
   ++ [ ClearDegraded ]
   ++ match ready with
      | Some conds => [ StatusUpdate TigeraStatusReady conds ]
      | None => []
      end
   ++ [ SetMetaData meta ])%list.

Definition completedShape (r : logcollector.ReconcileLogCollector) (h : Helpers)
    (res : Result) (err : option error) (tr : list event) : Prop :=
  existsb isClearDegraded tr = true ->
  exists pre variant su fl cc flw ready meta,
    forallb beforeApply pre = true
    /\ fl_OSType fl = OSTypeLinux
    /\ (forall w, flw = Some w -> fl_OSType w = OSTypeWindows)
    /\ HasWindowsNodes h = Ok (notNil flw)
    /\ IsAvailable h = notNil ready
    /\ tr = (pre ++ applyPhase variant su fl cc flw ready meta)%list
    /\ (res, err) = match ready with
                    | Some conds =>
                        (Done, StatusUpdate_ (logcollector.client r)
                                 TigeraStatusReady conds)
                    | None => (steps.Retry, None)
                    end.







(** *** Rendering the API server *)

#[global] Instance Object_eq_dec : EqDecision Object.
Proof. solve_decision. Defined.


(** *** The API server controller *)

(** The error of line 346. *)
Definition bothManagementError : error :=
  Errorf "having both a ManagementCluster and a ManagementClusterConnection is not supported".

Definition readsConnection (e : event) : bool :=
  match e with Reads ReadManagementClusterConnection => true | _ => false end.

(** Events before the ManagementClusterConnection is read, none of
    which renders or applies. *)
Definition beforeConnection (e : event) : bool :=
  beforeApply e && negb (readsConnection e).

(** Nothing is rendered or applied; and a reconcile that got as far
    as reading the ManagementClusterConnection has set the status
    degraded with [ResourceValidationError] and returns the error. *)
Definition rejectsBoth (res : Result) (err : option error) (tr : list event) : Prop :=
  rendered tr = [] /\ applied tr = []
  /\ (existsb readsConnection tr = true ->
      res = Done /\ err = Some bothManagementError
      /\ In (SetDegraded ResourceValidationError EmptyString
               (Some bothManagementError)) tr
      /\ forall d, degraded_after d tr = true).

(** Events that are no Enterprise-only read and no apply. *)
Definition communityOnly (e : event) : bool :=
  beforeApply e && negb (enterpriseOnly e).

(** A configuration of the API server without any of the
    Enterprise-only data. *)
Definition noEnterpriseConfig (c : Component) : Prop :=
  match c with
  | APIServerComponent cfg | APIServerPolicy cfg =>
      ac_TrustedBundle cfg = None
      /\ ac_ApplicationLayer cfg = None
      /\ ac_ManagementCluster cfg = None
      /\ ac_ManagementClusterConnection cfg = None
      /\ ac_KeyValidatorConfig cfg = None
  | CertificateManagement cc =>
      cc_TrustedBundle cc = None
      /\ exists tls,
           cc_KeyPairOptions cc
             = [ NewKeyPairOption (Some tls) true true;
                 NewKeyPairOption None false true ]
  | _ => True
  end.

Definition withoutEnterpriseData (res : Result) (err : option error)
    (tr : list event) : Prop :=
  existsb enterpriseOnly tr = false
  /\ Forall noEnterpriseConfig (rendered tr)
  /\ Forall noEnterpriseConfig (applied tr).





Definition podsRunning (h : Helpers) : bool :=
  DeploymentPodsRunning h "calico-apiserver" APIServerNamespace.


End claims.
(** * Theorems *)

Import operatorv1 corev1 certificatemanagement render reconcile effects world steps.
Import observe logic claims.

(** ** The program logic *)

Lemma satp_bind {A B} pre (N : B -> list event -> Prop) X (m : M A) (k : A -> M B) :
  satp pre (fun a t => satp t N X (k a)) X m -> satp pre N X (bind m k).
Proof.
  unfold satp, bind. destruct m as [[a|r e] l]; [|auto].
  destruct (k a) as [[b|r e] l']; rewrite app_assoc; auto.
Qed.

Lemma sat_bind {A B} quiet (N : B -> list event -> Prop) X (m : M A) (k : A -> M B) :
  block_ok quiet X m -> (forall a, sat quiet N X (k a)) -> sat quiet N X (bind m k).
Proof.
  intros Hm Hk pre Hpre. apply satp_bind.
  unfold block_ok in Hm. unfold satp at 1. destruct m as [[a|r e] l]; [|auto].
  apply Hk. rewrite forallb_app, Hpre, Hm. reflexivity.
Qed.

Lemma sat_defer {A} quiet (N : A -> list event -> Prop) X e (body : M A) :
  sat quiet (fun a t => N a (t ++ [e])%list) (fun r er t => X r er (t ++ [e])%list) body ->
  sat quiet N X (defer e body).
Proof.
  intros H pre Hpre. specialize (H pre Hpre). unfold satp, defer in *.
  destruct body as [[a|r er] l]; rewrite app_assoc; auto.
Qed.

Lemma sat_ask {A B} quiet (N : B -> list event -> Prop) X what (v : A) (k : A -> M B) :
  quiet (Reads what) = true -> sat quiet N X (k v) -> sat quiet N X (bind (ask what v) k).
Proof.
  intros Hq Hk pre Hpre. apply satp_bind. unfold satp at 1, ask.
  apply Hk. rewrite forallb_app, Hpre. cbn. rewrite Hq. reflexivity.
Qed.

Lemma satp_defer {A} pre (N : A -> list event -> Prop) X e (body : M A) :
  satp pre (fun a t => N a (t ++ [e])%list) (fun r er t => X r er (t ++ [e])%list) body ->
  satp pre N X (defer e body).
Proof.
  unfold satp, defer. destruct body as [[a|r er] l]; rewrite app_assoc; auto.
Qed.

Lemma run_sat quiet (Post : Result -> option error -> list event -> Prop) m :
  sat quiet (fun p t => Post (fst p) (snd p) t) Post m ->
  Post (out_result (run m)) (out_error (run m)) (out_events (run m)).
Proof.
  intros H. specialize (H [] eq_refl). unfold satp, run in *.
  destruct m as [[[r e]|r e] l]; simpl in *; auto.
Qed.

Lemma run_satp (Post : Result -> option error -> list event -> Prop) m :
  satp [] (fun p t => Post (fst p) (snd p) t) Post m ->
  Post (out_result (run m)) (out_error (run m)) (out_events (run m)).
Proof.
  unfold satp, run. destruct m as [[[r e]|r e] l]; simpl in *; auto.
Qed.

Lemma forallb_app_true {A} (f : A -> bool) l1 l2 :
  forallb f l1 = true -> forallb f l2 = true -> forallb f (l1 ++ l2)%list = true.
Proof. intros H1 H2. rewrite forallb_app, H1, H2. reflexivity. Qed.

(** The scrutinee on which the evaluation of a step is stuck. *)
Ltac head_scrut t :=
  lazymatch t with
  | context [match ?x with _ => _ end] => head_scrut x
  | _ => t
  end.

Ltac case_head :=
  match goal with
  | |- ?G => let x := head_scrut G in
             first [ is_var x; destruct x | destruct x eqn:? ]
  end.

Ltac red_block q :=
  cbv beta delta [try check degraded];
  cbn [bind ret emit exit ask fst snd app forallb q andb negb applyComponents].

(** Decide a step by cases on everything it looks at; [fin] closes the
    exits. *)
Ltac solve_block q fin :=
  unfold block_ok;
  repeat (red_block q;
          lazymatch goal with
          | |- context [match _ with _ => _ end] => case_head
          end);
  red_block q; first [ reflexivity | fin ].

(** Walk down a reconciler for as long as its steps are quiet, keeping
    what the oracle answered. *)
Ltac walk q fin :=
  repeat first
    [ apply sat_defer
    | apply sat_ask; [ reflexivity | ]
    | apply sat_bind; [ solve [solve_block q fin] | intro; cbv beta ]
    | lazymatch goal with
      | |- sat _ _ _ (let x := _ in _) => cbv zeta
      | |- sat _ _ _ (let '(a, b) := ?p in _) => destruct p
      end ].

(** Run what is left of a reconciler, by cases on every answer. *)
Ltac run_tail :=
  repeat (cbv beta delta [try check degraded];
          cbn [bind ret emit exit ask fst snd app applyComponents negb];
          lazymatch goal with
          | |- context [match _ with _ => _ end] => case_head
          end);
  cbv beta delta [try check degraded];
  cbn [bind ret emit exit ask fst snd app applyComponents negb].


(** Steps that keep what they computed, and steps that always return. *)
Lemma bind_assoc {A B C} (m : M A) (f : A -> M B) (k : B -> M C) :
  bind (bind m f) k = bind m (fun x => bind (f x) k).
Proof.
  unfold bind. destruct m as [[a|r e] l]; [|reflexivity].
  destruct (f a) as [[b|r e] l']; [|reflexivity].
  destruct (k b) as [[c|r e] l'']; rewrite app_assoc; reflexivity.
Qed.

Lemma sat_assoc {A B C} quiet (N : C -> list event -> Prop) X
    (m : M A) (f : A -> M B) (k : B -> M C) :
  sat quiet N X (bind m (fun x => bind (f x) k)) -> sat quiet N X (bind (bind m f) k).
Proof. rewrite bind_assoc. exact id. Qed.

Lemma sat_bind_next {A B} quiet (N : B -> list event -> Prop) X (m : M A)
    (k : A -> M B) v l :
  m = (Next v, l) -> forallb quiet l = true ->
  sat quiet N X (k v) -> sat quiet N X (bind m k).
Proof.
  intros -> Hl Hk pre Hpre. apply satp_bind. unfold satp at 1.
  apply Hk. rewrite forallb_app, Hpre, Hl. reflexivity.
Qed.

Lemma sat_bind_exit {A B} quiet (N : B -> list event -> Prop) X (m : M A)
    (k : A -> M B) :
  exit_ok quiet X m -> sat quiet N X (bind m k).
Proof.
  intros Hm pre Hpre. apply satp_bind. unfold exit_ok in Hm. unfold satp at 1.
  destruct m as [[a|r e] l]; [destruct Hm | auto].
Qed.

Ltac red_step q :=
  cbv beta delta [try check degraded apiserver.maintainFinalizer render.APIServer];
  cbn [bind ret emit exit ask fst snd app forallb q andb negb applyComponents notNil].

Ltac solve_step q fin :=
  unfold block_ok, exit_ok;
  repeat (red_step q;
          lazymatch goal with
          | |- context [match _ with _ => _ end] => case_head
          end);
  red_step q; first [ reflexivity | fin ].

(** The walk of [walk], which keeps the value of a step that cannot
    return, stops after a step that always returns, and rewrites with
    what is known by [known] as it goes. *)
Ltac walk_with q fin known :=
  repeat first
    [ progress known
    | apply sat_defer
    | apply sat_assoc
    | eapply sat_bind_next; [ red_step q; reflexivity | reflexivity | cbv beta ]
    | apply sat_bind_exit; solve [solve_step q fin]
    | apply sat_bind; [ solve [solve_step q fin] | intro; cbv beta ]
    | lazymatch goal with
      | |- sat _ _ _ (let x := _ in _) => cbv zeta
      | |- sat _ _ _ (let '(a, b) := ?p in _) => destruct p
      end ].

Ltac run_rest :=
  repeat (cbv beta delta [try check degraded apiserver.maintainFinalizer render.APIServer];
          cbn [bind ret emit exit ask fst snd app applyComponents negb notNil];
          lazymatch goal with
          | |- context [match _ with _ => _ end] => case_head
          end);
  cbv beta delta [try check degraded apiserver.maintainFinalizer render.APIServer];
  cbn [bind ret emit exit ask fst snd app applyComponents negb notNil].

(** ** [fillDefaults] *)

(** C9.  [fillDefaults] sets only unset fields: a nil CollectProcessPath
    becomes Enable; with a Syslog store, an empty LogTypes becomes
    [Audit, DNS, Flows] (IDSEvents is not among them) and an empty
    Encryption becomes None; every other field of the LogCollector is
    as before; the returned names are exactly those of the fields set;
    and a second application changes nothing and returns no name. *)
Theorem fillDefaults_defaults_only_unset (instance : LogCollector) :
  let instance' := fst (logcollector.fillDefaults instance) in
  let modified := snd (logcollector.fillDefaults instance) in
  CollectProcessPath (Spec instance')
    = Some (default CollectProcessPathEnable (CollectProcessPath (Spec instance)))
  /\ syslogOf instance' = defaultedSyslog <$> syslogOf instance
  /\ ~ In SyslogLogIDSEvents [SyslogLogAudit; SyslogLogDNS; SyslogLogFlows]
  /\ (S3 <$> AdditionalStores (Spec instance')) = (S3 <$> AdditionalStores (Spec instance))
  /\ (Splunk <$> AdditionalStores (Spec instance'))
       = (Splunk <$> AdditionalStores (Spec instance))
  /\ AdditionalSources (Spec instance') = AdditionalSources (Spec instance)
  /\ MultiTenantManagementClusterNamespace (Spec instance')
       = MultiTenantManagementClusterNamespace (Spec instance)
  /\ FluentdDaemonSet (Spec instance') = FluentdDaemonSet (Spec instance)
  /\ EKSLogForwarderDeployment (Spec instance') = EKSLogForwarderDeployment (Spec instance)
  /\ Meta instance' = Meta instance
  /\ Status instance' = Status instance
  /\ modified = defaultedFields instance
  /\ logcollector.fillDefaults instance' = (instance', []).
Proof.
  destruct instance as [m [stores sources cpp ns fd ek] st].
  assert (Hids : ~ In SyslogLogIDSEvents [SyslogLogAudit; SyslogLogDNS; SyslogLogFlows]).
  { cbn. intros [H|[H|[H|[]]]]; discriminate H. }
  destruct cpp as [cpp|], stores as [[s3 [[ep ps lt enc]|] sp]|];
    try (cbn; repeat split; solve [reflexivity | exact Hids]).
  all: destruct lt as [[|l0 lt]|], enc as [|c enc];
    cbn; repeat split; solve [reflexivity | exact Hids].
Qed.

(** ** [getEksCloudwatchLogConfig] *)

(** C10.  [getEksCloudwatchLogConfig] returns an error exactly when the
    region is empty, the group name is empty, the read of the
    eks-log-forwarder secret fails with an error other than NotFound, or
    the secret is there without a non-empty AWS id or key; with region
    and group given and the secret absent it returns nil and no error;
    and a returned configuration carries the id and key of the secret,
    the region and group as given, the prefix (kube-apiserver-audit-
    when empty) and the interval (60 when 0). *)
Theorem getEksCloudwatchLogConfig_spec (cli : Client) (interval : Z)
    (region group prefix : string) :
  let got := logcollector.getEksCloudwatchLogConfig cli interval region group prefix in
  let secret := GetSecret cli EksLogForwarderSecret OperatorNamespace in
  ((exists err, got = Err err) <->
     (region = EmptyString \/ group = EmptyString
      \/ (exists err, secret = Err err /\ IsNotFound err = false)
      \/ (exists s, secret = Ok s
            /\ (length (at_key (Data s) EksLogForwarderAwsId) = 0
                \/ length (at_key (Data s) EksLogForwarderAwsKey) = 0))))
  /\ (region <> EmptyString -> group <> EmptyString ->
      (exists err, secret = Err err /\ IsNotFound err = true) -> got = Ok None)
  /\ (forall cfg, got = Ok cfg ->
        match cfg with
        | None => exists err, secret = Err err /\ IsNotFound err = true
        | Some c =>
            exists s, secret = Ok s
              /\ c = mkEksConfig (at_key (Data s) EksLogForwarderAwsId)
                       (at_key (Data s) EksLogForwarderAwsKey) region group
                       (if String.eqb prefix EmptyString
                        then "kube-apiserver-audit-" else prefix)
                       (if Z.eqb interval 0 then 60%Z else interval)
        end).
Proof.
  cbv zeta. unfold logcollector.getEksCloudwatchLogConfig.
  destruct (String.eqb_spec region EmptyString) as [Hr|Hr].
  { split; [|split].
    - split; [intros _; left; exact Hr | intros _; eauto].
    - intros H; contradiction.
    - intros cfg H; discriminate H. }
  destruct (String.eqb_spec group EmptyString) as [Hg|Hg].
  { split; [|split].
    - split; [intros _; right; left; exact Hg | intros _; eauto].
    - intros _ H; contradiction.
    - intros cfg H; discriminate H. }
  destruct (GetSecret cli EksLogForwarderSecret OperatorNamespace) as [s|err] eqn:Hs.
  - destruct (Nat.eqb_spec (length (at_key (Data s) EksLogForwarderAwsId)) 0) as [Hi|Hi];
      [|destruct (Nat.eqb_spec (length (at_key (Data s) EksLogForwarderAwsKey)) 0)
          as [Hk|Hk]]; cbn [orb].
    + split; [|split].
      * split; [intros _ | intros _; eauto].
        right; right; right. exists s. auto.
      * intros _ _ [e [H _]]; discriminate H.
      * intros cfg H; discriminate H.
    + split; [|split].
      * split; [intros _ | intros _; eauto].
        right; right; right. exists s. auto.
      * intros _ _ [e [H _]]; discriminate H.
      * intros cfg H; discriminate H.
    + split; [|split].
      * split; [intros [e H]; discriminate H|].
        intros [H|[H|[[e [H _]]|[s' [H [H'|H']]]]]]; try contradiction; try discriminate H.
        all: injection H as <-; contradiction.
      * intros _ _ [e [H _]]; discriminate H.
      * intros cfg H. injection H as <-. exists s. auto.
  - destruct (IsNotFound err) eqn:Hnf.
    + split; [|split].
      * split; [intros [e H]; discriminate H|].
        intros [H|[H|[[e [H H']]|[s' [H _]]]]]; try contradiction; try discriminate H.
        injection H as <-. congruence.
      * reflexivity.
      * intros cfg H. injection H as <-. exists err. auto.
    + split; [|split].
      * split; [intros _ | intros _; eauto].
        right; right; left. exists err. auto.
      * intros _ _ [e [H H']]. injection H as <-. congruence.
      * intros cfg H; discriminate H.
Qed.

(** ** The log collector: the apply phase *)

Import logcollector.

Lemma beforeApply_not_cleared tr :
  forallb beforeApply tr = true -> existsb isClearDegraded tr = false.
Proof.
  induction tr as [|e tr IH]; [reflexivity|].
  cbn [forallb existsb]. intros H. apply andb_prop in H as [He Htr].
  rewrite (IH Htr). destruct e; try reflexivity; discriminate He.
Qed.

Lemma beforeApply_shape r h res err pre l :
  forallb beforeApply pre = true -> forallb beforeApply l = true ->
  completedShape r h res err (pre ++ l)%list.
Proof.
  intros H1 H2 H. rewrite beforeApply_not_cleared in H; [discriminate H|].
  apply forallb_app_true; assumption.
Qed.

Ltac quiet_exit :=
  intros;
  repeat rewrite <- app_assoc;
  apply beforeApply_shape; [assumption | reflexivity].

Ltac finish_shape :=
  split; [assumption|];
  split; [|split; [|split; [|split; [|split]]]];
  [> | | | | rewrite <- app_assoc; reflexivity | ];
  [> reflexivity
   | first [ intros ? [= <-]; reflexivity | intros ? [=] ]
   | match goal with H : HasWindowsNodes _ = _ |- _ => exact H end
   | match goal with
     | H : negb (IsAvailable ?h) = _ |- _ =>
         destruct (IsAvailable h); first [ reflexivity | discriminate H ]
     end
   | first [ reflexivity
           | f_equal; symmetry;
             match goal with H : StatusUpdate_ _ _ _ = _ |- _ => exact H end ] ].

Lemma Reconcile_completedShape r h req :
  let out := run (Reconcile r h req) in
  completedShape r h (out_result out) (out_error out) (out_events out).
Proof.
  cbv zeta. apply (run_sat beforeApply). unfold Reconcile.
  walk beforeApply quiet_exit.
  intros pre Hpre. unfold satp.
  run_tail.
  all: intros Hc.
  all: try (exfalso; rewrite !existsb_app, (beforeApply_not_cleared _ Hpre) in Hc;
            discriminate Hc).
  all: clear Hc.
  all: first
    [ eexists pre, _, _, _, _, None, None, _; finish_shape
    | eexists pre, _, _, _, _, None, (Some _), _; finish_shape
    | eexists pre, _, _, _, _, (Some _), None, _; finish_shape
    | eexists pre, _, _, _, _, (Some _), (Some _), _; finish_shape ].
Qed.

Lemma applied_app l1 l2 : applied (l1 ++ l2)%list = (applied l1 ++ applied l2)%list.
Proof.
  induction l1 as [|e l1 IH]; [reflexivity|].
  destruct e; cbn [app applied]; rewrite IH; reflexivity.
Qed.

Lemma rendered_app l1 l2 : rendered (l1 ++ l2)%list = (rendered l1 ++ rendered l2)%list.
Proof.
  induction l1 as [|e l1 IH]; [reflexivity|].
  destruct e; cbn [app rendered]; rewrite IH; try reflexivity.
  apply app_assoc.
Qed.

Lemma beforeApply_applied tr : forallb beforeApply tr = true -> applied tr = [].
Proof.
  induction tr as [|e tr IH]; [reflexivity|].
  cbn [forallb]. intros H. apply andb_prop in H as [He Htr].
  destruct e; try discriminate He; cbn [applied]; auto.
Qed.

Lemma beforeApply_rendered tr : forallb beforeApply tr = true -> rendered tr = [].
Proof.
  induction tr as [|e tr IH]; [reflexivity|].
  cbn [forallb]. intros H. apply andb_prop in H as [He Htr].
  destruct e; try discriminate He; cbn [rendered]; auto.
Qed.


(** C5.  In every invocation that gets through the apply phase, the
    components handed to [CreateOrUpdateOrDelete] are, in this order,
    the namespace setup, the Linux fluentd and the certificate
    management, followed by the Windows fluentd when one is rendered. *)
Theorem components_applied_in_fixed_order r h req :
  let out := run (Reconcile r h req) in
  completed out = true ->
  exists su fl cc,
    fl_OSType fl = OSTypeLinux
    /\ (applied (out_events out)
          = [NewSetup su; Fluentd fl; CertificateManagement cc]
        \/ exists flw,
             fl_OSType flw = OSTypeWindows
             /\ applied (out_events out)
                  = [NewSetup su; Fluentd fl; CertificateManagement cc; Fluentd flw]).
Proof.
  cbv zeta. intros Hc.
  destruct (Reconcile_completedShape r h req Hc)
    as (pre & variant & su & fl & cc & flw & ready & meta
        & Hpre & Hfl & Hflw & _ & _ & Hev & _).
  exists su, fl, cc. split; [exact Hfl|].
  rewrite Hev, applied_app, (beforeApply_applied _ Hpre).
  destruct flw as [w|], ready as [conds|]; cbn; eauto.
Qed.

(** C6.  In every invocation that gets through the apply phase, a
    fluentd component with OSType Windows is rendered, and applied, if
    and only if [HasWindowsNodes] answers true; when it answers false,
    the one fluentd component applied is the Linux one. *)
Theorem windows_fluentd_iff_windows_nodes r h req :
  let out := run (Reconcile r h req) in
  completed out = true ->
  exists windows,
    HasWindowsNodes h = Ok windows
    /\ existsb (isFluentd OSTypeWindows) (rendered (out_events out)) = windows
    /\ existsb (isFluentd OSTypeWindows) (applied (out_events out)) = windows
    /\ existsb (isFluentd OSTypeLinux) (applied (out_events out)) = true
    /\ length (filter isAnyFluentd (applied (out_events out)))
         = (if windows then 2 else 1).
Proof.
  cbv zeta. intros Hc.
  destruct (Reconcile_completedShape r h req Hc)
    as (pre & variant & su & fl & cc & flw & ready & meta
        & Hpre & Hfl & Hflw & Hw & _ & Hev & _).
  exists (notNil flw). split; [exact Hw|].
  rewrite Hev, applied_app, rendered_app,
    (beforeApply_applied _ Hpre), (beforeApply_rendered _ Hpre).
  destruct flw as [w|].
  - specialize (Hflw w eq_refl).
    destruct ready; cbn; unfold isFluentd; rewrite Hfl, Hflw; auto.
  - destruct ready; cbn; unfold isFluentd; rewrite Hfl; auto.
Qed.

(** C7.  After the apply phase, the status of the LogCollector is
    written, with the state Ready, exactly when the status manager
    reports available; otherwise nothing is written after
    [ClearDegraded] and the reconcile asks for a requeue after the
    standard retry interval, with no error. *)
Theorem ready_iff_available r h req :
  let out := run (Reconcile r h req) in
  completed out = true ->
  exists pre meta,
    existsb isClearDegraded pre = false
    /\ if IsAvailable h then
         exists conds,
           out_events out
             = (pre ++ [ClearDegraded; StatusUpdate TigeraStatusReady conds;
                        SetMetaData meta])%list
           /\ out_result out = Done
           /\ out_error out = StatusUpdate_ (client r) TigeraStatusReady conds
       else
         out_events out = (pre ++ [ClearDegraded; SetMetaData meta])%list
         /\ out_result out = Retry
         /\ out_error out = None.
Proof.
  cbv zeta. intros Hc.
  destruct (Reconcile_completedShape r h req Hc)
    as (pre & variant & su & fl & cc & flw & ready & meta
        & Hpre & _ & _ & _ & Ha & Hev & Hres).
  rewrite Ha, Hev. unfold applyPhase.
  set (applies := ([ApplyImageSet variant [Fluentd fl];
          CreateOrUpdateOrDelete (NewSetup su); CreateOrUpdateOrDelete (Fluentd fl);
          CreateOrUpdateOrDelete (CertificateManagement cc); Reads ReadWindowsNodes]
          ++ match flw with
             | Some w => [ApplyImageSet variant [Fluentd w];
                          CreateOrUpdateOrDelete (Fluentd w)]
             | None => [] end)%list).
  exists (pre ++ applies)%list, meta. split.
  - rewrite existsb_app, (beforeApply_not_cleared _ Hpre).
    subst applies. destruct flw; reflexivity.
  - assert (Hassoc : forall rest : list event,
      (pre ++ [ApplyImageSet variant [Fluentd fl];
               CreateOrUpdateOrDelete (NewSetup su); CreateOrUpdateOrDelete (Fluentd fl);
               CreateOrUpdateOrDelete (CertificateManagement cc); Reads ReadWindowsNodes]
            ++ match flw with
               | Some w => [ApplyImageSet variant [Fluentd w];
                            CreateOrUpdateOrDelete (Fluentd w)]
               | None => [] end ++ rest)%list
      = ((pre ++ applies) ++ rest)%list).
    { intros rest. subst applies. rewrite <- (app_assoc pre).
      f_equal; try (rewrite <- app_assoc; reflexivity). }
    rewrite Hassoc.
    destruct ready as [conds|]; injection Hres as -> ->; cbn [notNil].
    + exists conds. split; [reflexivity | split; reflexivity].
    + split; [reflexivity | split; reflexivity].
Qed.

Lemma components_applied_in_fixed_order_witness :
  let r := examples.logCollectorReconciler examples.quietClient in
  let h := examples.helpers true examples.theInstallation None None in
  let out := run (Reconcile r h examples.crRequest) in
  completed out = true
  /\ exists su fl cc,
       fl_OSType fl = OSTypeLinux
       /\ (applied (out_events out)
             = [NewSetup su; Fluentd fl; CertificateManagement cc]
           \/ exists flw,
                fl_OSType flw = OSTypeWindows
                /\ applied (out_events out)
                     = [NewSetup su; Fluentd fl; CertificateManagement cc; Fluentd flw]).
Proof.
  intros r h out. split; [vm_compute; reflexivity|].
  apply (components_applied_in_fixed_order r h examples.crRequest).
  vm_compute; reflexivity.
Defined.

Lemma windows_fluentd_iff_windows_nodes_witness :
  let r := examples.logCollectorReconciler examples.quietClient in
  let h := examples.helpers false examples.theInstallation None None in
  let out := run (Reconcile r h examples.crRequest) in
  completed out = true
  /\ exists windows,
       HasWindowsNodes h = Ok windows
       /\ existsb (isFluentd OSTypeWindows) (rendered (out_events out)) = windows
       /\ existsb (isFluentd OSTypeWindows) (applied (out_events out)) = windows
       /\ existsb (isFluentd OSTypeLinux) (applied (out_events out)) = true
       /\ length (filter isAnyFluentd (applied (out_events out)))
            = (if windows then 2 else 1).
Proof.
  intros r h out. split; [vm_compute; reflexivity|].
  apply (windows_fluentd_iff_windows_nodes r h examples.crRequest).
  vm_compute; reflexivity.
Defined.

Lemma ready_iff_available_witness :
  let r := examples.logCollectorReconciler examples.quietClient in
  let h := examples.helpers true examples.theInstallation None None in
  let out := run (Reconcile r h examples.crRequest) in
  completed out = true
  /\ exists pre meta,
       existsb isClearDegraded pre = false
       /\ if IsAvailable h then
            exists conds,
              out_events out
                = (pre ++ [ClearDegraded; StatusUpdate TigeraStatusReady conds;
                           SetMetaData meta])%list
              /\ out_result out = Done
              /\ out_error out = StatusUpdate_ (client r) TigeraStatusReady conds
          else
            out_events out = (pre ++ [ClearDegraded; SetMetaData meta])%list
            /\ out_result out = Retry
            /\ out_error out = None.
Proof.
  intros r h out. split; [vm_compute; reflexivity|].
  apply (ready_iff_available r h examples.crRequest).
  vm_compute; reflexivity.
Defined.

(** ** The log collector: degraded on failure *)










(** ** The API server controller *)

Import apiserver.

Lemma beforeConnection_beforeApply tr :
  forallb beforeConnection tr = true -> forallb beforeApply tr = true.
Proof.
  induction tr as [|e tr IH]; [reflexivity|].
  cbn [forallb]. unfold beforeConnection at 1. intros H.
  apply andb_prop in H as [He Htr]. apply andb_prop in He as [He _].
  rewrite He, (IH Htr). reflexivity.
Qed.

Lemma beforeConnection_not_read tr :
  forallb beforeConnection tr = true -> existsb readsConnection tr = false.
Proof.
  induction tr as [|e tr IH]; [reflexivity|].
  cbn [forallb existsb]. unfold beforeConnection at 1. intros H.
  apply andb_prop in H as [He Htr]. apply andb_prop in He as [_ He].
  rewrite (IH Htr). destruct (readsConnection e); [discriminate He | reflexivity].
Qed.

Lemma rejectsBoth_before res err tr :
  forallb beforeConnection tr = true -> rejectsBoth res err tr.
Proof.
  intros Hq. unfold rejectsBoth.
  rewrite (beforeApply_rendered _ (beforeConnection_beforeApply _ Hq)).
  rewrite (beforeApply_applied _ (beforeConnection_beforeApply _ Hq)).
  rewrite (beforeConnection_not_read _ Hq).
  split; [reflexivity|]. split; [reflexivity|]. intros H; discriminate H.
Qed.

Ltac early_exit :=
  intros; apply rejectsBoth_before; rewrite ?forallb_app;
  repeat match goal with H : forallb _ _ = true |- _ => rewrite H end;
  reflexivity.

(** C8.  On a Calico Enterprise cluster with both a ManagementCluster
    and a ManagementClusterConnection, a reconcile renders and applies
    nothing; and one that gets as far as reading the two resources sets
    the status degraded with [ResourceValidationError] and returns the
    error of line 346. *)
Theorem both_management_resources_rejected r h req vi mc mcc :
  GetInstallation h = Ok vi ->
  Variant (snd vi) = TigeraSecureEnterprise ->
  GetManagementCluster h = Ok (Some mc) ->
  GetManagementClusterConnection h = Ok (Some mcc) ->
  let out := run (Reconcile r h req) in
  rejectsBoth (out_result out) (out_error out) (out_events out).
Proof.
  intros HI Hv Hmc Hmcc. cbv zeta. apply (run_sat beforeConnection).
  unfold Reconcile. rewrite HI, Hmc, Hmcc.
  walk_with beforeConnection early_exit
    ltac:(rewrite ?Hv, ?String.eqb_refl; cbv iota).
  intros pre Hpre. unfold satp.
  cbv beta delta [try check degraded]; cbn [bind ret emit exit ask fst snd app].
  unfold rejectsBoth.
  rewrite !rendered_app, !applied_app.
  rewrite (beforeApply_rendered _ (beforeConnection_beforeApply _ Hpre)).
  rewrite (beforeApply_applied _ (beforeConnection_beforeApply _ Hpre)).
  split; [reflexivity|]. split; [reflexivity|]. intros _.
  split; [reflexivity|]. split; [reflexivity|]. split.
  - apply in_or_app. left. apply in_or_app. right. right. left. reflexivity.
  - intros d. unfold degraded_after. rewrite !fold_left_app. reflexivity.
Qed.

Lemma both_management_resources_rejected_witness :
  let h := examples.helpers false examples.theInstallation
             (Some examples.theManagementCluster) (Some (mkOpaque "connection")) in
  let out := run (Reconcile examples.apiServerReconciler h examples.crRequest) in
  Variant examples.theInstallation = TigeraSecureEnterprise
  /\ existsb readsConnection (out_events out) = true
  /\ rejectsBoth (out_result out) (out_error out) (out_events out).
Proof.
  intros h out. split; [reflexivity|]. split; [vm_compute; reflexivity|].
  apply (both_management_resources_rejected examples.apiServerReconciler h
           examples.crRequest (TigeraSecureEnterprise, examples.theInstallation)
           examples.theManagementCluster (mkOpaque "connection")); reflexivity.
Defined.

Lemma communityOnly_beforeApply tr :
  forallb communityOnly tr = true -> forallb beforeApply tr = true.
Proof.
  induction tr as [|e tr IH]; [reflexivity|].
  cbn [forallb]. unfold communityOnly at 1. intros H.
  apply andb_prop in H as [He Htr]. apply andb_prop in He as [He _].
  rewrite He, (IH Htr). reflexivity.
Qed.

Lemma communityOnly_no_enterprise tr :
  forallb communityOnly tr = true -> existsb enterpriseOnly tr = false.
Proof.
  induction tr as [|e tr IH]; [reflexivity|].
  cbn [forallb existsb]. unfold communityOnly at 1. intros H.
  apply andb_prop in H as [He Htr]. apply andb_prop in He as [_ He].
  rewrite (IH Htr). destruct (enterpriseOnly e); [discriminate He | reflexivity].
Qed.

Lemma withoutEnterpriseData_before res err tr :
  forallb communityOnly tr = true -> withoutEnterpriseData res err tr.
Proof.
  intros Hq. unfold withoutEnterpriseData.
  rewrite (beforeApply_rendered _ (communityOnly_beforeApply _ Hq)).
  rewrite (beforeApply_applied _ (communityOnly_beforeApply _ Hq)).
  rewrite (communityOnly_no_enterprise _ Hq).
  split; [reflexivity|]. split; constructor.
Qed.

Ltac community_exit :=
  intros; apply withoutEnterpriseData_before; rewrite ?forallb_app;
  repeat match goal with H : forallb _ _ = true |- _ => rewrite H end;
  reflexivity.

(** C4.  When the variant of the Installation is not Calico Enterprise,
    a reconcile makes none of the Enterprise-only reads, and every
    component it renders or applies has no trusted bundle, no
    ApplicationLayer, no ManagementCluster, no
    ManagementClusterConnection, no KeyValidatorConfig and no tunnel CA
    key pair. *)
Theorem enterprise_data_only_for_enterprise r h req :
  (forall vi, GetInstallation h = Ok vi ->
              Variant (snd vi) <> TigeraSecureEnterprise) ->
  let out := run (Reconcile r h req) in
  withoutEnterpriseData (out_result out) (out_error out) (out_events out).
Proof.
  intros Hv. cbv zeta. apply (run_sat communityOnly). unfold Reconcile.
  destruct (GetInstallation h) as [vi|e] eqn:HI.
  - specialize (Hv vi eq_refl). apply String.eqb_neq in Hv.
    walk_with communityOnly community_exit ltac:(rewrite ?Hv).
    intros pre Hpre. unfold satp.
    cbv beta delta [noEnterpriseData];
      cbn [includeV3NetworkPolicy applicationLayer managementCluster
           managementClusterConnection trustedBundle keyValidatorConfig
           tunnelCAKeyPair].
    run_rest.
    all: unfold withoutEnterpriseData.
    all: rewrite !existsb_app, !rendered_app, !applied_app.
    all: rewrite (beforeApply_rendered _ (communityOnly_beforeApply _ Hpre)).
    all: rewrite (beforeApply_applied _ (communityOnly_beforeApply _ Hpre)).
    all: rewrite (communityOnly_no_enterprise _ Hpre).
    all: cbn [existsb enterpriseOnly orb rendered applied app].
    all: split; [reflexivity|].
    all: split; repeat constructor; eauto.
  - walk_with communityOnly community_exit idtac.
Qed.

Lemma enterprise_data_only_for_enterprise_witness :
  let h := examples.helpers false examples.theCalicoInstallation None None in
  let out := run (Reconcile examples.apiServerReconciler h examples.crRequest) in
  GetInstallation h = Ok (Calico, examples.theCalicoInstallation)
  /\ length (applied (out_events out)) = 2
  /\ withoutEnterpriseData (out_result out) (out_error out) (out_events out).
Proof.
  intros h out. split; [reflexivity|]. split; [vm_compute; reflexivity|].
  apply (enterprise_data_only_for_enterprise examples.apiServerReconciler h
           examples.crRequest).
  intros vi Hvi. injection Hvi as <-. intros E. vm_compute in E. discriminate E.
Defined.















